(** * tmpufw: temporary [ufw] rules with a time to live

    A shallow embedding of [tmpufw.py] and the properties of its rule
    ledger: the duration parser [parse_time], the sweep ([--clean]) and the
    installer ([--rule]).

    The script is embedded as it is written, as a state and exception monad
    over a [world]: the three files it works on, the lines it prints and the
    [ufw] commands it runs.  An exception leaves the world as it was when it
    was raised, as in Python.

    What the model takes from Python and its libraries:
    - a [str] is a [string]; [lower] acts on the ASCII letters and [\d] is
      an ASCII digit;
    - a float is abstract ([PyFloat]): the script only reads, prints,
      compares and adds floats;
    - a [timedelta] built from whole seconds is its number of seconds, and
      building it raises [OverflowError] beyond 999999999 days; the limit of
      [int] on the number of digits is left out;
    - a file is its text; [write] takes effect at once, [close] and
      [os.sync] change nothing, [move] is one step, and opening a file for
      writing only fails when its directory is missing;
    - the firewall is a function from the commands run so far and the
      command to the output of its failure, if it fails. *)

From Stdlib Require Import String Ascii List ZArith Lia Bool DecimalString.
Import ListNotations.
Local Open Scope string_scope.
Local Open Scope Z_scope.

(** ** Python strings *)

Module Py.

(** Line feed and carriage return. *)
Definition LF : ascii := "010"%char.
Definition CR : ascii := "013"%char.

Definition nl : string := String LF "".

(** [s.lower()], on the ASCII letters. *)
Definition lower_char (c : ascii) : ascii :=
  let n := nat_of_ascii c in
  if andb (Nat.leb 65 n) (Nat.leb n 90) then ascii_of_nat (n + 32) else c.

Fixpoint lower (s : string) : string :=
  match s with
  | EmptyString => EmptyString
  | String c s' => String (lower_char c) (lower s')
  end.

(** [s.replace(c, "")] for a one-character [c]. *)
Fixpoint remove_char (c : ascii) (s : string) : string :=
  match s with
  | EmptyString => EmptyString
  | String a s' => if Ascii.eqb a c then remove_char c s' else String a (remove_char c s')
  end.

(** [needle in hay]: substring test. *)
Fixpoint contains (needle hay : string) : bool :=
  orb (String.prefix needle hay)
      (match hay with
       | EmptyString => false
       | String _ hay' => contains needle hay'
       end).

(** [s.lstrip(c)], [s.rstrip(c)] and [s.strip(c)] for a one-character [c]. *)
Fixpoint lstrip (c : ascii) (s : string) : string :=
  match s with
  | String a s' => if Ascii.eqb a c then lstrip c s' else s
  | EmptyString => EmptyString
  end.

Fixpoint rstrip (c : ascii) (s : string) : string :=
  match s with
  | EmptyString => EmptyString
  | String a s' =>
      match rstrip c s' with
      | EmptyString => if Ascii.eqb a c then EmptyString else String a EmptyString
      | r => String a r
      end
  end.

Definition strip (c : ascii) (s : string) : string := rstrip c (lstrip c s).

(** [s.split(c, 1)]: cut at the first [c]; one element when there is none. *)
Fixpoint split1 (c : ascii) (s : string) : list string :=
  match s with
  | EmptyString => [EmptyString]
  | String a s' =>
      if Ascii.eqb a c then [EmptyString; s']
      else match split1 c s' with
           | x :: r => String a x :: r
           | [] => []
           end
  end.

(** Reading in text mode translates "\r\n" and a lone "\r" to "\n". *)
Fixpoint universal_newlines (s : string) : string :=
  match s with
  | EmptyString => EmptyString
  | String a s' =>
      if Ascii.eqb a CR then
        match s' with
        | String b s'' => if Ascii.eqb b LF then universal_newlines s'
                          else String LF (universal_newlines s')
        | EmptyString => String LF EmptyString
        end
      else String a (universal_newlines s')
  end.

(** The lines of a text, each with its line feed (the last one may lack it):
    what iterating over a file, or [readlines()], yields. *)
Fixpoint splitlines (s : string) : list string :=
  match s with
  | EmptyString => []
  | String a s' =>
      if Ascii.eqb a LF then nl :: splitlines s'
      else match splitlines s' with
           | [] => [String a EmptyString]
           | l :: r => String a l :: r
           end
  end.

Definition is_digit (c : ascii) : bool :=
  let n := nat_of_ascii c in andb (Nat.leb 48 n) (Nat.leb n 57).

(** [int(s)] on a string of decimal digits. *)
Fixpoint int_acc (acc : Z) (s : string) : Z :=
  match s with
  | EmptyString => acc
  | String c s' => int_acc (10 * acc + Z.of_nat (nat_of_ascii c - 48)) s'
  end.

Definition int (s : string) : Z := int_acc 0 s.

Fixpoint all_digits (s : string) : bool :=
  match s with
  | EmptyString => true
  | String c s' => andb (is_digit c) (all_digits s')
  end.

Fixpoint free_of (c : ascii) (s : string) : bool :=
  match s with
  | EmptyString => true
  | String a s' => andb (negb (Ascii.eqb a c)) (free_of c s')
  end.

(** A line that ends with its only line feed, and one that has none. *)
Fixpoint complete (l : string) : bool :=
  match l with
  | EmptyString => false
  | String a l' => if Ascii.eqb a LF then String.eqb l' EmptyString else complete l'
  end.

Definition partial (l : string) : bool :=
  andb (negb (String.eqb l EmptyString)) (free_of LF l).

(** The lines of a text: complete ones, but for the last, which may be
    partial. *)
Fixpoint proper (ls : list string) : bool :=
  match ls with
  | [] => true
  | l :: ls' =>
      match ls' with
      | [] => orb (complete l) (partial l)
      | _ => andb (complete l) (proper ls')
      end
  end.

End Py.

(** ** Floats

    Expiration times are Python floats.  The program reads them with
    [float(s)], prints them with [str(x)], compares them with [<] and adds a
    whole number of seconds to them; the model is parametric in these four
    operations. *)

Class PyFloat := {
  float : Type;
  float_of_str : string -> option float;  (* float(s); None is ValueError *)
  str_of_float : float -> string;         (* str(x) *)
  float_lt : float -> float -> bool;      (* x < y *)
  float_add : float -> Z -> float         (* x + td.total_seconds() *)
}.

(** ** The world of the script *)

(** The three files the script works on. *)
Inductive path := pid_file | rules_file | tmp_rules_file.

(** Their contents ([None]: the file does not exist), and whether the
    directory of the rules file ([rules_path]) exists. *)
Record fs := {
  pid : option string;
  rules : option string;
  tmp_rules : option string;
  rules_path : bool
}.

Definition lookup (d : fs) (p : path) : option string :=
  match p with
  | pid_file => pid d
  | rules_file => rules d
  | tmp_rules_file => tmp_rules d
  end.

Definition store (p : path) (v : option string) (d : fs) : fs :=
  match p with
  | pid_file => {| pid := v; rules := rules d; tmp_rules := tmp_rules d; rules_path := rules_path d |}
  | rules_file => {| pid := pid d; rules := v; tmp_rules := tmp_rules d; rules_path := rules_path d |}
  | tmp_rules_file => {| pid := pid d; rules := rules d; tmp_rules := v; rules_path := rules_path d |}
  end.

(** The operations of the script that change the file system. *)
Inductive fs_op :=
| op_makedirs                          (* makedirs(rules_path) *)
| op_open_w (p : path)                 (* open(p, 'w') *)
| op_open_a (p : path)                 (* open(p, 'a') *)
| op_write (p : path) (data : string)  (* handle.write(data) *)
| op_move (src dst : path)             (* move(src, dst) *)
| op_remove (p : path).                (* remove(p) *)

Definition content (d : fs) (p : path) : string :=
  match lookup d p with
  | Some c => c
  | None => EmptyString
  end.

Definition apply_op (o : fs_op) (d : fs) : fs :=
  match o with
  | op_makedirs =>
      {| pid := pid d; rules := rules d; tmp_rules := tmp_rules d; rules_path := true |}
  | op_open_w p => store p (Some EmptyString) d
  | op_open_a p => store p (Some (content d p)) d
  | op_write p data => store p (Some (content d p ++ data)) d
  | op_move src dst => store src None (store dst (lookup d src) d)
  | op_remove p => store p None d
  end.

(** The file system after a sequence of operations. *)
Definition replay (ops : list fs_op) (d : fs) : fs :=
  fold_left (fun d o => apply_op o d) ops d.

(** Exceptions that leave [main]. *)
Inductive exn :=
| Exception (msg : string)
| CalledProcessError (output : string)
| IOError                (* and its subclass FileNotFoundError *)
| ValueError
| OverflowError
| SystemExit (code : Z).

Inductive outcome (A : Type) :=
| Return (a : A)
| Raise (e : exn).
Arguments Return {A} a.
Arguments Raise {A} e.

Section Script.

Context `{PyFloat}.

(** The lines the script prints. *)
Inductive message :=
| msg_default_ttl                          (* "Something with the timereading missmatched, ..." *)
| msg_status_header                        (* the two header lines of --status *)
| msg_status (t : float) (rule : string)   (* expiration, tab, rule *)
| msg_skipped (t : float) (rule : string)  (* expiration, "skipped rule", rule *)
| msg_deleted (rule : string)              (* time, "deleted rule", rule *)
| msg_exists                               (* "Rule already exists, updating expiration time" *)
| msg_command (command : string).          (* the command, in a dry run *)

Record world := {
  disk : fs;
  oplog : list fs_op;       (* the file operations done, oldest first *)
  stdout : list message;    (* the lines printed, oldest first *)
  ufw_calls : list string   (* the commands run, oldest first *)
}.

(** What the script is run with: the [--dry-run] flag, the firewall (the
    output of a command that fails, given the commands run before it), the
    clock and the process identifier as [str] prints it. *)
Record env := {
  dry_run : bool;
  ufw : list string -> string -> option string;
  now : float;
  getpid : string
}.

Definition M (A : Type) : Type := world -> outcome A * world.

Definition ret {A} (a : A) : M A := fun w => (Return a, w).

Definition bind {A B} (m : M A) (k : A -> M B) : M B :=
  fun w => match m w with
           | (Return a, w') => k a w'
           | (Raise e, w') => (Raise e, w')
           end.

Definition raise {A} (e : exn) : M A := fun w => (Raise e, w).

(** [try: m except ...: handler]; the handler says which exceptions it takes. *)
Definition try_except {A} (m : M A) (handler : exn -> option (M A)) : M A :=
  fun w => match m w with
           | (Return a, w') => (Return a, w')
           | (Raise e, w') => match handler e with
                              | Some h => h w'
                              | None => (Raise e, w')
                              end
           end.

End Script.

Declare Scope script_scope.
Delimit Scope script_scope with script.
Notation "x <- m ;; k" := (bind m (fun x => k))
  (at level 61, m at next level, right associativity) : script_scope.
Notation "m ;; k" := (bind m (fun _ => k))
  (at level 61, right associativity) : script_scope.

Local Open Scope script_scope.

(** ** The duration parser *)

(** The groups of
    [((?P<days>\d+?)d)?((?P<hours>\d+?)h)?((?P<minutes>\d+?)m)?((?P<seconds>\d+?)s)?]. *)
Record groupdict := {
  days : option string;
  hours : option string;
  minutes : option string;
  seconds : option string
}.

(** The longest run of digits at the start of [s], and what follows it. *)
Fixpoint take_digits (s : string) : string * string :=
  match s with
  | String c s' =>
      if Py.is_digit c then let (ds, r) := take_digits s' in (String c ds, r)
      else (EmptyString, s)
  | EmptyString => (EmptyString, EmptyString)
  end.

(** One optional group [((?P<name>\d+?)u)?] at the start of [s].  The lazy
    [\d+?] grows until the unit letter follows, and only digits can be
    crossed, so the group matches exactly when the digits at the start of [s]
    are at least one and are followed by [u]; nothing after the group can
    fail, so there is no backtracking into it. *)
Definition match_group (u : ascii) (s : string) : option string * string :=
  match take_digits s with
  | (String c ds, String v r) =>
      if Ascii.eqb v u then (Some (String c ds), r) else (None, s)
  | _ => (None, s)
  end.

(** [regex.match(s)]: the pattern is matched at the start of [s], what
    follows the match is ignored, and since every group is optional the match
    never fails. *)
Definition regex_match (s : string) : option groupdict :=
  let (d, s1) := match_group "d" s in
  let (h, s2) := match_group "h" s1 in
  let (m, s3) := match_group "m" s2 in
  let (sec, _) := match_group "s" s3 in
  Some {| days := d; hours := h; minutes := m; seconds := sec |}.

(** A [timedelta] whose microseconds are zero, as its [total_seconds()]. *)
Definition timedelta := Z.

Definition max_days : Z := 999999999.

(** [timedelta(days=d, hours=h, minutes=m, seconds=s)]: the days, once the
    seconds are carried over, must be within [max_days]. *)
Definition mk_timedelta (d h m s : Z) : outcome timedelta :=
  let total := d * 86400 + h * 3600 + m * 60 + s in
  if orb (max_days <? total / 86400) (total / 86400 <? - max_days)
  then Raise OverflowError
  else Return total.

(** The keyword arguments built from the groups that matched
    ([if param: time_params[name] = int(param)]); a missing one is 0. *)
Definition time_param (param : option string) : Z :=
  match param with
  | Some (String c ds) => Py.int (String c ds)
  | _ => 0
  end.

Definition timedelta_of (parts : groupdict) : outcome timedelta :=
  mk_timedelta (time_param (days parts)) (time_param (hours parts))
               (time_param (minutes parts)) (time_param (seconds parts)).

Section Program.

Context `{PyFloat}.

Definition lift {A} (o : outcome A) : M A := fun w => (o, w).

Definition print (m : message) : M unit :=
  fun w => (Return tt,
            {| disk := disk w; oplog := oplog w;
               stdout := stdout w ++ [m]; ufw_calls := ufw_calls w |}).

Definition parse_time (time_str : string) : M timedelta :=
  match regex_match (Py.remove_char " " (Py.lower time_str)) with
  | None => lift (mk_timedelta 30 0 0 0)
  | Some parts =>
      td <- lift (timedelta_of parts) ;;
      if td <=? 0 then
        print msg_default_ttl ;;
        lift (mk_timedelta 30 0 0 0)
      else lift (timedelta_of parts)
  end.

(** ** Files *)

(** [path.exists(p)] *)
Definition exists_ (p : path) : M bool :=
  fun w => (Return (match lookup (disk w) p with Some _ => true | None => false end), w).

Definition do_op (o : fs_op) : M unit :=
  fun w => (Return tt,
            {| disk := apply_op o (disk w); oplog := oplog w ++ [o];
               stdout := stdout w; ufw_calls := ufw_calls w |}).

(** A file cannot be created in a directory that does not exist; the
    directories of the PID file and of the temporary file always do. *)
Definition parent_exists (d : fs) (p : path) : bool :=
  match p with
  | rules_file => rules_path d
  | _ => true
  end.

(** [open(p, 'w')] and [open(p, 'a')] *)
Definition open_w (p : path) : M unit :=
  fun w => if parent_exists (disk w) p then do_op (op_open_w p) w else (Raise IOError, w).

Definition open_a (p : path) : M unit :=
  fun w => if parent_exists (disk w) p then do_op (op_open_a p) w else (Raise IOError, w).

(** [handle.write(data)] on a file opened for writing *)
Definition write (p : path) (data : string) : M unit := do_op (op_write p data).

(** [open(p, 'r')] *)
Definition open_r (p : path) : M unit :=
  fun w => match lookup (disk w) p with
           | Some _ => (Return tt, w)
           | None => (Raise IOError, w)
           end.

(** [handle.read()] on a file opened for reading *)
Definition read (p : path) : M string :=
  fun w => (Return (Py.universal_newlines (content (disk w) p)), w).

(** [handle.readlines()], and the lines a [for] over the file sees *)
Definition readlines (p : path) : M (list string) :=
  c <- read p ;; ret (Py.splitlines c).

(** [handle.close()] and [os.sync()] *)
Definition close (p : path) : M unit := ret tt.

Definition os_sync : M unit := ret tt.

(** [move(src, dst)] *)
Definition move (src dst : path) : M unit :=
  fun w => match lookup (disk w) src with
           | Some _ => do_op (op_move src dst) w
           | None => (Raise IOError, w)
           end.

(** [remove(p)] *)
Definition remove (p : path) : M unit :=
  fun w => match lookup (disk w) p with
           | Some _ => do_op (op_remove p) w
           | None => (Raise IOError, w)
           end.

(** [path.exists(rules_path)] and [makedirs(rules_path)] *)
Definition exists_rules_path : M bool :=
  fun w => (Return (rules_path (disk w)), w).

Definition makedirs : M unit := do_op op_makedirs.

(** ** The firewall *)

(** [check_output(command, stderr=STDOUT, shell=True)] *)
Definition check_output (e : env) (command : string) : M unit :=
  fun w =>
    let w' := {| disk := disk w; oplog := oplog w; stdout := stdout w;
                 ufw_calls := ufw_calls w ++ [command] |} in
    match ufw e (ufw_calls w) command with
    | None => (Return tt, w')
    | Some output => (Raise (CalledProcessError output), w')
    end.

Definition ufw_insert (e : env) (position rule : string) : M unit :=
  let command := "ufw insert " ++ position ++ " " ++ rule in
  if dry_run e then print (msg_command command)
  else check_output e command.

Definition ufw_delete (e : env) (rule : string) : M unit :=
  let command := "ufw delete " ++ rule in
  if dry_run e then print (msg_command command)
  else check_output e command.

Definition ufw_error {A} (output : string) : M A :=
  raise (Exception ("ufw: " ++ output)).

(** [exit(code)] *)
Definition exit {A} (code : Z) : M A := raise (SystemExit code).

(** ** Ledger lines *)

(** [timestamp, rule = line.strip("\n").split(' ', 1)] *)
Definition unpack_line (line : string) : M (string * string) :=
  match Py.split1 " " (Py.strip Py.LF line) with
  | [timestamp; rule] => ret (timestamp, rule)
  | _ => raise ValueError
  end.

(** [float(timestamp)] *)
Definition to_float (timestamp : string) : M float :=
  match float_of_str timestamp with
  | Some t => ret t
  | None => raise ValueError
  end.

(** [for x in xs: body(x)] *)
Fixpoint for_each {A} (xs : list A) (body : A -> M unit) : M unit :=
  match xs with
  | [] => ret tt
  | x :: xs' => body x ;; for_each xs' body
  end.

(** ** File names *)

Definition __file__ : string := "tmpufw".

(** The names of the three files, as [main] sets them: in a dry run they are
    under [./tmp]. *)
Definition file_name (e : env) (p : path) : string :=
  if dry_run e then
    match p with
    | pid_file => "./tmp/" ++ __file__ ++ ".pid"
    | rules_file => "./tmp/" ++ __file__ ++ "/rules"
    | tmp_rules_file => "./tmp/" ++ __file__ ++ "-rules"
    end
  else
    match p with
    | pid_file => "/var/run/" ++ __file__ ++ ".pid"
    | rules_file => "/usr/local/share/" ++ __file__ ++ "/rules"
    | tmp_rules_file => "/tmp/" ++ __file__ ++ "-rules"
    end.

(** ** --status *)

Definition status : M unit :=
  ex <- exists_ rules_file ;;
  if ex then
    print msg_status_header ;;
    open_r rules_file ;;
    ls <- readlines rules_file ;;
    for_each ls (fun line =>
      p <- unpack_line line ;;
      t <- to_float (fst p) ;;
      print (msg_status t (snd p)))
  else raise (Exception "There are no rules to display").

(** ** --clean *)

Definition clean_line (e : env) (current_time : float) (line : string) : M unit :=
  p <- unpack_line line ;;
  t <- to_float (fst p) ;;
  if float_lt current_time t then
    write tmp_rules_file line ;;
    print (msg_skipped t (snd p))
  else
    try_except
      (ufw_delete e (snd p) ;; print (msg_deleted (snd p)))
      (fun err => match err with
                  | CalledProcessError output => Some (ufw_error output)
                  | _ => None
                  end).

Definition clean (e : env) : M unit :=
  ex <- exists_ pid_file ;;
  if ex then raise (Exception (__file__ ++ " is already running"))
  else
    try_except
      (open_w pid_file ;; write pid_file (getpid e) ;; close pid_file)
      (fun err => match err with
                  | IOError =>
                      Some (raise (Exception ("unable to create PID file: "
                                              ++ file_name e pid_file)))
                  | _ => None
                  end) ;;
    exr <- exists_ rules_file ;;
    (if exr then
       open_a tmp_rules_file ;;
       let current_time := now e in
       open_r rules_file ;;
       ls <- readlines rules_file ;;
       for_each ls (clean_line e current_time) ;;
       os_sync ;;
       close tmp_rules_file ;;
       move tmp_rules_file rules_file
     else ret tt) ;;
    remove pid_file.

(** ** --rule *)

Definition ledger_line (timestamp : float) (rule : string) : string :=
  str_of_float timestamp ++ " " ++ rule.

Definition install (e : env) (rule position ttl : string) : M unit :=
  exd <- exists_rules_path ;;
  (if negb exd then makedirs else ret tt) ;;
  td <- parse_time ttl ;;
  let timestamp := float_add (now e) td in
  open_r rules_file ;;
  text <- read rules_file ;;
  (if Py.contains rule text then
     print msg_exists ;;
     close rules_file ;;
     open_r rules_file ;;
     open_w tmp_rules_file ;;
     ls <- readlines rules_file ;;
     for_each ls (fun line =>
       if Py.contains rule line then
         write tmp_rules_file (ledger_line timestamp rule) ;;
         write tmp_rules_file Py.nl
       else write tmp_rules_file line) ;;
     close tmp_rules_file ;;
     close rules_file ;;
     move tmp_rules_file rules_file ;;
     exit 0
   else ret tt) ;;
  close rules_file ;;
  try_except
    (open_a rules_file ;;
     write rules_file (ledger_line timestamp rule) ;;
     write rules_file Py.nl ;;
     close rules_file)
    (fun err => match err with
                | IOError =>
                    Some (raise (Exception ("unable to write to the rules file: "
                                            ++ file_name e rules_file)))
                | _ => None
                end) ;;
  try_except
    (ufw_insert e position rule)
    (fun err => match err with
                | CalledProcessError output =>
                    Some (if String.eqb output ("ERROR: Invalid position '1'" ++ Py.nl)
                          then check_output e ("ufw " ++ rule)
                          else raise (Exception ("ufw: " ++ output)))
                | _ => None
                end).

(** ** main *)

Record args := {
  arg_status : bool;
  arg_clean : bool;
  arg_rule : option string;
  arg_position : string;   (* str(args.position); "1" by default *)
  arg_ttl : string         (* "30d" by default *)
}.

Definition main (e : env) (a : args) : M unit :=
  (if arg_status a then status else ret tt) ;;
  (if arg_clean a then clean e else ret tt) ;;
  match arg_rule a with
  | Some (String c r) => install e (String c r) (arg_position a) (arg_ttl a)
  | _ => ret tt
  end.

End Program.

(** ** Describing runs

    The vocabulary of the statements below: the entries of a ledger, what a
    run adds to the world, and what the parser computes. *)

Section Ledger.

Context `{PyFloat}.

(** *** Ledgers *)

(** The ledger as a reader sees it: the lines of the rules file. *)
Definition ledger (d : fs) : list string :=
  match rules d with
  | Some c => Py.splitlines (Py.universal_newlines c)
  | None => []
  end.

(** The text of a list of lines. *)
Fixpoint text_of (ls : list string) : string :=
  match ls with
  | [] => EmptyString
  | l :: ls' => l ++ text_of ls'
  end.

(** The expiration time and the rule of a line, when the line unpacks into
    two fields and the first one is a float. *)
Definition parse_line (line : string) : option (float * string) :=
  match Py.split1 " " (Py.strip Py.LF line) with
  | [timestamp; rule] =>
      match float_of_str timestamp with
      | Some t => Some (t, rule)
      | None => None
      end
  | _ => None
  end.

Definition rule_of (line : string) : string :=
  match parse_line line with
  | Some (_, rule) => rule
  | None => EmptyString
  end.

(** The lines of a ledger that are entries for a rule. *)
Definition entries_of (rule : string) (ls : list string) : list string :=
  filter (fun l => String.eqb (rule_of l) rule) ls.



(** A float that [str] prints in one field of one line, and that [float]
    reads back: every Python float is such. *)
Definition printable (x : float) : Prop :=
  float_of_str (str_of_float x) = Some x
  /\ Py.free_of " " (str_of_float x) = true
  /\ Py.free_of Py.LF (str_of_float x) = true
  /\ Py.free_of Py.CR (str_of_float x) = true.

(** *** Worlds *)

(** The world at the start of a run on the file system [d]. *)
Definition start (d : fs) : world :=
  {| disk := d; oplog := []; stdout := []; ufw_calls := [] |}.

(** The world after some file operations, printed lines and commands. *)
Definition after (w : world) (ops : list fs_op) (msgs : list message)
           (cmds : list string) : world :=
  {| disk := replay ops (disk w);
     oplog := oplog w ++ ops;
     stdout := stdout w ++ msgs;
     ufw_calls := ufw_calls w ++ cmds |}.

(** Two worlds whose PID file and rules file are the same, the temporary
    file being in the second if it is in the first. *)
Definition framed (w w' : world) : Prop :=
  pid (disk w') = pid (disk w)
  /\ rules (disk w') = rules (disk w)
  /\ (tmp_rules (disk w) <> None -> tmp_rules (disk w') <> None).



(** *** What a sweep does *)







(** *** What the parser computes *)

(** A duration string as the parser sees it: lower case, without spaces. *)
Definition normal (time_str : string) : string :=
  Py.remove_char " " (Py.lower time_str).

(** The computed total of a duration string: the seconds of the groups the
    pattern matches in it. *)
Definition computed_total (time_str : string) : Z :=
  match regex_match (normal time_str) with
  | Some parts =>
      time_param (days parts) * 86400 + time_param (hours parts) * 3600
      + time_param (minutes parts) * 60 + time_param (seconds parts)
  | None => 0
  end.

Definition thirty_days : timedelta := 2592000.

(** One component [<int><unit>] of a duration string, or none; the integer
    is a non-empty string of digits. *)
Definition component (n : option string) (u : ascii) : string :=
  match n with
  | Some ds => ds ++ String u EmptyString
  | None => EmptyString
  end.

Definition count_ok (n : option string) : Prop :=
  match n with
  | Some ds => ds <> EmptyString /\ Py.all_digits ds = true
  | None => True
  end.

(** What may follow the components without being read as one: nothing, or
    a text that does not start with a digit. *)
Definition ignored (rest : string) : bool :=
  match rest with
  | EmptyString => true
  | String c _ => negb (Py.is_digit c)
  end.

(** *** What an install does *)

(** The time to live the installer adds to the clock, and what the parser
    prints on the way. *)
Definition ttl_seconds (ttl : string) : timedelta :=
  if computed_total ttl <=? 0 then thirty_days else computed_total ttl.

Definition ttl_msgs (ttl : string) : list message :=
  if computed_total ttl <=? 0 then [msg_default_ttl] else [].

Definition expires_at (e : env) (ttl : string) : float :=
  float_add (now e) (ttl_seconds ttl).

Definition dir_ops (d : fs) : list fs_op :=
  if rules_path d then [] else [op_makedirs].

(** The replacement of the lines in which the rule is found. *)
Definition refresh (timestamp : float) (rule line : string) : string :=
  if Py.contains rule line then ledger_line timestamp rule ++ Py.nl else line.

Definition refresh_ops (timestamp : float) (rule line : string) : list fs_op :=
  if Py.contains rule line
  then [op_write tmp_rules_file (ledger_line timestamp rule); op_write tmp_rules_file Py.nl]
  else [op_write tmp_rules_file line].

(** The operations of an install that finds the rule in the ledger. *)
Definition update_ops (d : fs) (timestamp : float) (rule : string) : list fs_op :=
  dir_ops d ++ [op_open_w tmp_rules_file]
  ++ flat_map (refresh_ops timestamp rule) (ledger d)
  ++ [op_move tmp_rules_file rules_file].

(** The operations of an install that does not. *)
Definition append_ops (timestamp : float) (rule : string) : list fs_op :=
  [op_open_a rules_file; op_write rules_file (ledger_line timestamp rule);
   op_write rules_file Py.nl].

Definition insert_command (position rule : string) : string :=
  "ufw insert " ++ position ++ " " ++ rule.

Definition invalid_position_1 : string := "ERROR: Invalid position '1'" ++ Py.nl.

(** What the call of [ufw_insert] and its handler come to. *)
Definition insert_result (e : env) (position rule : string) (w : world)
  : outcome unit * world :=
  let command := insert_command position rule in
  if dry_run e then (Return tt, after w [] [msg_command command] [])
  else
    match ufw e (ufw_calls w) command with
    | None => (Return tt, after w [] [] [command])
    | Some output =>
        if String.eqb output invalid_position_1 then
          match ufw e (ufw_calls w ++ [command]) ("ufw " ++ rule) with
          | None => (Return tt, after w [] [] [command; "ufw " ++ rule])
          | Some output' =>
              (Raise (CalledProcessError output'), after w [] [] [command; "ufw " ++ rule])
          end
        else (Raise (Exception ("ufw: " ++ output)), after w [] [] [command])
    end.

End Ledger.

(** ** More on runs

    The vocabulary of the further properties: what [--status] prints, the
    entries the installer writes, and runs that leave things alone. *)

Section Further.

Context `{PyFloat}.


(** The line of an entry, as the installer writes it. *)
Definition entry_line (en : float * string) : string :=
  ledger_line (fst en) (snd en) ++ Py.nl.

(** An entry that can be written on one line and read back. *)
Definition writable (en : float * string) : Prop :=
  printable (fst en)
  /\ Py.free_of Py.LF (snd en) = true
  /\ Py.free_of Py.CR (snd en) = true.

(** Two worlds with the same files, the same operations done and the same
    commands run: only what was printed may differ. *)
Definition same_files (w w' : world) : Prop :=
  disk w' = disk w /\ oplog w' = oplog w /\ ufw_calls w' = ufw_calls w.

(** A text without carriage returns whose last line, if it has one, ends
    with a line feed: what the script itself writes. *)
Definition well_ended (c : string) : Prop :=
  Py.free_of Py.CR c = true /\ forallb Py.complete (Py.splitlines c) = true.

(** A computation that runs no command, whatever its outcome. *)
Definition runs_no_command {A} (m : M A) : Prop :=
  forall w, ufw_calls (snd (m w)) = ufw_calls w.

End Further.

(** ** Whole seconds

    An instance to run the script on: the floats that are whole numbers of
    seconds, written in decimal with or without the [.0] that [str] prints. *)

Module Whole.

Fixpoint drop_point_zero (s : string) : string :=
  match s with
  | EmptyString => EmptyString
  | String c s' => if String.eqb s ".0" then EmptyString else String c (drop_point_zero s')
  end.

Definition of_str (s : string) : option Z :=
  match NilZero.int_of_string (drop_point_zero s) with
  | Some i => Some (Z.of_int i)
  | None => None
  end.

Definition to_str (x : Z) : string := NilZero.string_of_int (Z.to_int x) ++ ".0".

Definition seconds : PyFloat :=
  {| float := Z; float_of_str := of_str; str_of_float := to_str;
     float_lt := Z.ltb; float_add := Z.add |}.

End Whole.

(** ** Runs

    Concrete file systems, firewalls and environments, over whole seconds. *)

Module Run.

#[local] Existing Instance Whole.seconds.

(** A fresh host: no file, and no directory for the rules file. *)
Definition fresh : fs :=
  {| pid := None; rules := None; tmp_rules := None; rules_path := false |}.

(** A host with a ledger and nothing else. *)
Definition with_ledger (c : string) : fs :=
  {| pid := None; rules := Some c; tmp_rules := None; rules_path := true |}.


(** A host on which a sweep holds the lock. *)
Definition locked (c : string) : fs :=
  {| pid := Some "17"; rules := Some c; tmp_rules := None; rules_path := true |}.

(** A firewall that accepts every command. *)
Definition accepting : list string -> string -> option string :=
  fun _ _ => None.

(** A firewall that rejects one command, with the given output. *)
Definition rejecting (command output : string) : list string -> string -> option string :=
  fun _ c => if String.eqb c command then Some output else None.

Definition live (backend : list string -> string -> option string) (t : Z) : env :=
  {| dry_run := false; ufw := backend; now := t; getpid := "4242" |}.

(** Two rules, one a prefix of the other. *)
Definition ssh_1 : string := "allow from 10.0.0.1".
Definition ssh_10 : string := "allow from 10.0.0.10".

Definition line (t rule : string) : string := t ++ " " ++ rule ++ Py.nl.

(** At 1000 seconds: one active rule, then two expired ones. *)
Definition three_rules : string :=
  line "1100.0" "allow 443" ++ line "100.0" "allow 22" ++ line "200.0" "allow 80".

Definition not_found : string := "ERROR: Could not delete non-existent rule" ++ Py.nl.

(** A firewall that cannot delete the rule of the second line. *)
Definition refusing : list string -> string -> option string :=
  rejecting "ufw delete allow 22" not_found.

(** At 1000 seconds: an expired rule, then an active one. *)
Definition two_rules : string :=
  line "990.0" "allow 22" ++ line "1010.0" "allow 80".

(** The ledger tracks [ssh_10] only; and both rules. *)
Definition only_ssh_10 : string := line "700.0" ssh_10.
Definition both_ssh : string := line "500.0" ssh_1 ++ line "700.0" ssh_10.

(** A firewall that has no position 2, and one that has no position 1. *)
Definition invalid_position_2 : string := "ERROR: Invalid position '2'" ++ Py.nl.

Definition no_position_2 : list string -> string -> option string :=
  rejecting "ufw insert 2 allow 22" invalid_position_2.

Definition no_position_1 : list string -> string -> option string :=
  rejecting "ufw insert 1 allow 22" invalid_position_1.

(** The runs the claims are tried on, all at 1000 seconds. *)
Definition reinstall_ssh_1 : outcome unit * world :=
  install (live accepting 1000) ssh_1 "1" "1d" (start (with_ledger both_ssh)).

Definition reinstall_forever : outcome unit * world :=
  install (live accepting 1000) ssh_1 "1" "1000000000d"
          (start (with_ledger (line "500.0" ssh_1))).

Definition install_ssh_1 : outcome unit * world :=
  install (live accepting 1000) ssh_1 "1" "1d" (start (with_ledger only_ssh_10)).

Definition first_install : outcome unit * world :=
  install (live accepting 1000) ssh_1 "1" "1d" (start fresh).

Definition sweep_refused : outcome unit * world :=
  clean (live refusing 1000) (start (with_ledger three_rules)).


Definition install_at_2 : outcome unit * world :=
  install (live no_position_2 1000) "allow 22" "2" "1d" (start (with_ledger only_ssh_10)).

Definition install_new : outcome unit * world :=
  install (live accepting 1000) "allow 22" "1" "1d" (start (with_ledger only_ssh_10)).

(** A dry run, on a firewall that would reject everything. *)
Definition dry (t : Z) : env :=
  {| dry_run := true; ufw := fun _ _ => Some "ERROR"; now := t; getpid := "4242" |}.

(** [--clean --rule "allow 22" --ttl 1d], and the same with [--status]. *)
Definition clean_and_rule : args :=
  {| arg_status := false; arg_clean := true; arg_rule := Some "allow 22";
     arg_position := "1"; arg_ttl := "1d" |}.

Definition status_clean_and_rule : args :=
  {| arg_status := true; arg_clean := true; arg_rule := Some "allow 22";
     arg_position := "1"; arg_ttl := "1d" |}.


(** Two entries, the second with a rule of several words. *)
Definition two_entries : list (float * string) :=
  [(1100, "allow 443"); (100, "allow from 10.0.0.1 to any port 22")].

End Run.

(** * Properties *)

(** ** Strings *)







Lemma append_assoc (a b c : string) : ((a ++ b) ++ c = a ++ (b ++ c))%string.
Proof. induction a as [|x a IH]; simpl; [reflexivity|now rewrite IH]. Qed.

Lemma append_nil_r (a : string) : (a ++ "" = a)%string.
Proof. induction a as [|x a IH]; simpl; [reflexivity|now rewrite IH]. Qed.

(** ** Lines *)

Lemma splitlines_complete (l r : string) :
  Py.complete l = true -> Py.splitlines (l ++ r) = l :: Py.splitlines r.
Proof.
  induction l as [|a l IH]; simpl; [discriminate|].
  destruct (Ascii.eqb a Py.LF) eqn:E.
  - intros El. apply String.eqb_eq in El. subst l. simpl.
    apply Ascii.eqb_eq in E. subst a. reflexivity.
  - intros Hc. now rewrite (IH Hc).
Qed.

Lemma splitlines_partial (l : string) :
  Py.partial l = true -> Py.splitlines l = [l].
Proof.
  unfold Py.partial. induction l as [|a l IH]; simpl; [discriminate|].
  destruct (Ascii.eqb a Py.LF); simpl; [discriminate|].
  intros F. destruct l as [|b l]; [reflexivity|].
  now rewrite (IH F).
Qed.

Lemma proper_cons (l : string) (ls : list string) :
  Py.complete l = true -> Py.proper ls = true -> Py.proper (l :: ls) = true.
Proof.
  intros C P. cbn [Py.proper]. destruct ls; rewrite C; [reflexivity|exact P].
Qed.

Lemma proper_inv (l : string) (ls : list string) :
  Py.proper (l :: ls) = true ->
  (Py.complete l = true \/ (ls = [] /\ Py.partial l = true)) /\ Py.proper ls = true.
Proof.
  cbn [Py.proper]. destruct ls as [|l' ls].
  - intros P. apply orb_true_iff in P as [C|Pa]; auto.
  - intros P. apply andb_true_iff in P as [C P]. auto.
Qed.

Lemma splitlines_text_of (ls : list string) :
  Py.proper ls = true -> Py.splitlines (text_of ls) = ls.
Proof.
  induction ls as [|l ls IH]; [reflexivity|].
  intros P. apply proper_inv in P as [[C|[-> Pa]] P]; cbn [text_of].
  - now rewrite (splitlines_complete _ _ C), (IH P).
  - rewrite append_nil_r. now apply splitlines_partial.
Qed.

Lemma splitlines_proper (s : string) : Py.proper (Py.splitlines s) = true.
Proof.
  induction s as [|a s IH]; [reflexivity|]. cbn [Py.splitlines].
  destruct (Ascii.eqb a Py.LF) eqn:E.
  - apply proper_cons; [|exact IH]. simpl. apply Ascii.eqb_eq in E. now subst a.
  - destruct (Py.splitlines s) as [|l ls].
    + simpl. unfold Py.partial. simpl. now rewrite E.
    + apply proper_inv in IH as [[C|[-> Pa]] P].
      * apply proper_cons; [|exact P]. simpl. now rewrite E.
      * simpl. unfold Py.partial in *. simpl. rewrite E. simpl.
        apply andb_true_iff in Pa as [_ F]. rewrite F. apply orb_true_r.
Qed.


Lemma text_of_splitlines (s : string) : text_of (Py.splitlines s) = s.
Proof.
  induction s as [|a s IH]; [reflexivity|]. cbn [Py.splitlines].
  destruct (Ascii.eqb a Py.LF) eqn:E.
  - apply Ascii.eqb_eq in E. subst a. cbn [text_of]. now rewrite IH.
  - destruct (Py.splitlines s) as [|l ls]; simpl in *; now rewrite <- IH.
Qed.

Lemma free_of_app (c : ascii) (a b : string) :
  Py.free_of c (a ++ b) = andb (Py.free_of c a) (Py.free_of c b).
Proof.
  induction a as [|x a IH]; simpl; [reflexivity|].
  now rewrite IH, andb_assoc.
Qed.

Lemma free_of_text_of (c : ascii) (ls : list string) :
  Py.free_of c (text_of ls) = forallb (Py.free_of c) ls.
Proof.
  induction ls as [|l ls IH]; simpl; [reflexivity|].
  now rewrite free_of_app, IH.
Qed.

Lemma universal_newlines_free (s : string) :
  Py.free_of Py.CR (Py.universal_newlines s) = true.
Proof.
  induction s as [|a s IH]; [reflexivity|]. cbn [Py.universal_newlines].
  destruct (Ascii.eqb a Py.CR) eqn:E.
  - destruct s as [|b s]; [reflexivity|].
    destruct (Ascii.eqb b Py.LF); [exact IH|].
    cbn [Py.free_of]. now rewrite IH.
  - cbn [Py.free_of]. now rewrite E, IH.
Qed.

Lemma universal_newlines_id (s : string) :
  Py.free_of Py.CR s = true -> Py.universal_newlines s = s.
Proof.
  induction s as [|a s IH]; [reflexivity|]. cbn [Py.universal_newlines Py.free_of].
  intros F. apply andb_true_iff in F as [Ha F].
  apply negb_true_iff in Ha. now rewrite Ha, (IH F).
Qed.


Lemma text_of_app (a b : list string) :
  text_of (a ++ b) = (text_of a ++ text_of b)%string.
Proof.
  induction a as [|x a IH]; simpl; [reflexivity|].
  now rewrite IH, append_assoc.
Qed.

(** ** Substrings *)

Lemma prefix_empty (n : string) : String.prefix n "" = true -> n = EmptyString.
Proof. destruct n; [reflexivity|discriminate]. Qed.

Lemma prefix_app_l (n : string) : forall h b,
  String.prefix n h = true -> String.prefix n (h ++ b) = true.
Proof.
  induction n as [|a n IH]; intros h b P; [now destruct (h ++ b)%string|].
  destruct h as [|x h]; simpl in *; [discriminate|].
  destruct (ascii_dec a x); [now apply IH|discriminate].
Qed.

Lemma contains_app_l (n h b : string) :
  Py.contains n h = true -> Py.contains n (h ++ b) = true.
Proof.
  induction h as [|x h IH]; cbn [Py.contains append]; intros C.
  - rewrite orb_false_r in C. apply prefix_empty in C. subst n.
    now destruct b.
  - apply orb_true_iff in C as [P|C].
    + change (String x (h ++ b)) with (String x h ++ b)%string.
      now rewrite (prefix_app_l _ _ _ P).
    + rewrite (IH C). apply orb_true_r.
Qed.

Lemma contains_app_r (n a h : string) :
  Py.contains n h = true -> Py.contains n (a ++ h) = true.
Proof.
  intros C. induction a as [|x a IH]; [exact C|].
  cbn [Py.contains append]. rewrite IH. apply orb_true_r.
Qed.

Lemma prefix_refl (n : string) : String.prefix n n = true.
Proof.
  induction n as [|a n IH]; [reflexivity|]. simpl.
  destruct (ascii_dec a a); [exact IH|congruence].
Qed.

Lemma contains_refl (n : string) : Py.contains n n = true.
Proof. destruct n; cbn [Py.contains]; now rewrite prefix_refl. Qed.

(** ** Fields *)

Lemma split1_two (c : ascii) (s a b : string) :
  Py.split1 c s = [a; b] -> s = (a ++ String c b)%string.
Proof.
  revert a. induction s as [|x s IH]; simpl; intros a E; [discriminate|].
  destruct (Ascii.eqb x c) eqn:X.
  - apply Ascii.eqb_eq in X. subst x. now injection E as <- <-.
  - destruct (Py.split1 c s) as [|y [|z [|]]]; try discriminate.
    injection E as <- <-. simpl. now rewrite (IH y eq_refl).
Qed.

Lemma split1_app (c : ascii) (a b : string) :
  Py.free_of c a = true -> Py.split1 c (a ++ String c b) = [a; b].
Proof.
  induction a as [|x a IH]; simpl; intros F.
  - now rewrite Ascii.eqb_refl.
  - apply andb_true_iff in F as [X F]. apply negb_true_iff in X.
    now rewrite X, (IH F).
Qed.

Lemma lstrip_decomp (c : ascii) (s : string) :
  exists k, s = (k ++ Py.lstrip c s)%string.
Proof.
  induction s as [|a s [k IH]]; [now exists EmptyString|]. simpl.
  destruct (Ascii.eqb a c).
  - exists (String a k). simpl. now rewrite <- IH.
  - now exists EmptyString.
Qed.

Lemma rstrip_decomp (c : ascii) (s : string) :
  exists k, s = (Py.rstrip c s ++ k)%string.
Proof.
  induction s as [|a s [k IH]]; [now exists EmptyString|]. simpl.
  destruct (Py.rstrip c s) as [|b r].
  - destruct (Ascii.eqb a c).
    + now exists (String a s).
    + exists s. reflexivity.
  - exists k. simpl in *. now rewrite <- IH.
Qed.

Lemma strip_decomp (c : ascii) (s : string) :
  exists k1 k2, s = (k1 ++ Py.strip c s ++ k2)%string.
Proof.
  destruct (lstrip_decomp c s) as [k1 E1].
  destruct (rstrip_decomp c (Py.lstrip c s)) as [k2 E2].
  exists k1, k2. unfold Py.strip. now rewrite <- E2.
Qed.

Lemma lstrip_free (c : ascii) (s : string) :
  Py.free_of c s = true -> Py.lstrip c s = s.
Proof.
  destruct s as [|a s]; [reflexivity|]. simpl. intros F.
  apply andb_true_iff in F as [X _]. apply negb_true_iff in X. now rewrite X.
Qed.

Lemma rstrip_free (c : ascii) (s : string) :
  Py.free_of c s = true -> Py.rstrip c s = s.
Proof.
  induction s as [|a s IH]; [reflexivity|]. simpl. intros F.
  apply andb_true_iff in F as [X F]. apply negb_true_iff in X.
  rewrite (IH F), X. now destruct s.
Qed.

Lemma rstrip_line (s : string) :
  Py.free_of Py.LF s = true -> Py.rstrip Py.LF (s ++ Py.nl) = s.
Proof.
  induction s as [|a s IH]; [reflexivity|]. simpl. intros F.
  apply andb_true_iff in F as [X F]. apply negb_true_iff in X.
  rewrite (IH F), X. now destruct s.
Qed.

Lemma strip_line (s : string) :
  Py.free_of Py.LF s = true -> Py.strip Py.LF (s ++ Py.nl) = s.
Proof.
  intros F. unfold Py.strip.
  destruct s as [|a s]; [reflexivity|].
  pose proof F as F'. simpl in F'. apply andb_true_iff in F' as [X _].
  apply negb_true_iff in X. simpl. rewrite X.
  now apply (rstrip_line (String a s)).
Qed.

Lemma complete_inv (l : string) :
  Py.complete l = true ->
  exists body, l = (body ++ Py.nl)%string /\ Py.free_of Py.LF body = true.
Proof.
  induction l as [|a l IH]; simpl; [discriminate|].
  destruct (Ascii.eqb a Py.LF) eqn:X.
  - intros E. apply String.eqb_eq in E. subst l. apply Ascii.eqb_eq in X. subst a.
    now exists EmptyString.
  - intros C. destruct (IH C) as (body & -> & F).
    exists (String a body). simpl. now rewrite X, F.
Qed.

Lemma complete_line (s : string) :
  Py.free_of Py.LF s = true -> Py.complete (s ++ Py.nl) = true.
Proof.
  induction s as [|a s IH]; [reflexivity|]. simpl. intros F.
  apply andb_true_iff in F as [X F]. apply negb_true_iff in X.
  now rewrite X, (IH F).
Qed.

Lemma proper_In (ls : list string) (l : string) :
  Py.proper ls = true -> In l ls -> Py.complete l = true \/ Py.partial l = true.
Proof.
  induction ls as [|x ls IH]; intros P I; [contradiction|].
  apply proper_inv in P as [[C|[-> Pa]] P]; destruct I as [<-|I]; auto; contradiction.
Qed.

Lemma proper_replace (pre post : list string) (l l' : string) :
  Py.proper (pre ++ l :: post) = true -> Py.complete l' = true ->
  Py.proper (pre ++ l' :: post) = true.
Proof.
  intros P C. induction pre as [|x pre IH]; simpl in *.
  - apply proper_inv in P as [_ P]. now apply proper_cons.
  - apply proper_inv in P as [[Cx|[E _]] P].
    + apply proper_cons; auto.
    + now destruct pre.
Qed.

(** The body of a line of a text: the line without its line feed. *)
Lemma strip_of_line (l : string) :
  Py.complete l = true \/ Py.partial l = true ->
  Py.free_of Py.LF (Py.strip Py.LF l) = true.
Proof.
  intros [C|Pa].
  - destruct (complete_inv l C) as (body & -> & F). now rewrite strip_line.
  - unfold Py.partial in Pa. apply andb_true_iff in Pa as [_ F].
    unfold Py.strip. now rewrite (lstrip_free _ _ F), (rstrip_free _ _ F).
Qed.

(** ** The pattern *)

Lemma take_digits_app (ds : string) (v : ascii) (r : string) :
  Py.all_digits ds = true -> Py.is_digit v = false ->
  take_digits (ds ++ String v r) = (ds, String v r).
Proof.
  intros Hd Hv. induction ds as [|c ds IH]; simpl.
  - now rewrite Hv.
  - simpl in Hd. apply andb_true_iff in Hd as [Hc Hd].
    now rewrite Hc, (IH Hd).
Qed.

Lemma match_group_hit (u : ascii) (ds r : string) :
  ds <> EmptyString -> Py.all_digits ds = true -> Py.is_digit u = false ->
  match_group u ((ds ++ String u "") ++ r) = (Some ds, r).
Proof.
  intros Hne Hd Hu. unfold match_group.
  rewrite append_assoc. simpl.
  rewrite (take_digits_app ds u r Hd Hu).
  destruct ds as [|c ds]; [congruence|].
  now rewrite Ascii.eqb_refl.
Qed.

Lemma match_group_miss (u v : ascii) (ds r : string) :
  Py.all_digits ds = true -> Py.is_digit v = false -> Ascii.eqb v u = false ->
  match_group u ((ds ++ String v "") ++ r) = (None, (ds ++ String v "") ++ r).
Proof.
  intros Hd Hv Hne. unfold match_group.
  rewrite append_assoc. simpl.
  rewrite (take_digits_app ds v r Hd Hv).
  destruct ds as [|c ds]; [reflexivity|].
  now rewrite Hne.
Qed.

Lemma match_group_empty (u : ascii) : match_group u "" = (None, "").
Proof. reflexivity. Qed.

Lemma no_group_component (u v : ascii) (o : option string) (r : string) :
  count_ok o -> Py.is_digit v = false -> Ascii.eqb v u = false ->
  match_group u r = (None, r) ->
  match_group u (component o v ++ r) = (None, component o v ++ r).
Proof.
  intros Ho Hv Hne Hr. destruct o as [ds|]; simpl; [|exact Hr].
  destruct Ho as [_ Hall]. now apply match_group_miss.
Qed.

Lemma match_group_component (u : ascii) (o : option string) (r : string) :
  count_ok o -> Py.is_digit u = false ->
  match_group u r = (None, r) ->
  match_group u (component o u ++ r) = (o, r).
Proof.
  intros Ho Hu Hr. destruct o as [ds|]; simpl; [|exact Hr].
  destruct Ho as [Hne Hall]. now apply match_group_hit.
Qed.

Lemma match_group_ignored (u : ascii) (rest : string) :
  ignored rest = true -> match_group u rest = (None, rest).
Proof.
  destruct rest as [|c r]; [reflexivity|]. simpl. intros I.
  apply negb_true_iff in I. unfold match_group. simpl. now rewrite I.
Qed.

(** On a string of the grammar, followed by a text that is ignored, the
    groups are the components. *)
Lemma regex_match_grammar (d h m s : option string) (rest : string) :
  count_ok d -> count_ok h -> count_ok m -> count_ok s -> ignored rest = true ->
  regex_match (component d "d" ++ component h "h" ++ component m "m"
               ++ component s "s" ++ rest)
  = Some {| days := d; hours := h; minutes := m; seconds := s |}.
Proof.
  intros Hd Hh Hm Hs Hr. unfold regex_match.
  rewrite (match_group_component "d" d) by
    (try assumption; try reflexivity;
     repeat (apply no_group_component; try assumption; try reflexivity);
     now apply match_group_ignored).
  rewrite (match_group_component "h" h) by
    (try assumption; try reflexivity;
     repeat (apply no_group_component; try assumption; try reflexivity);
     now apply match_group_ignored).
  rewrite (match_group_component "m" m) by
    (try assumption; try reflexivity;
     repeat (apply no_group_component; try assumption; try reflexivity);
     now apply match_group_ignored).
  rewrite (match_group_component "s" s) by
    (try assumption; try reflexivity; now apply match_group_ignored).
  reflexivity.
Qed.

Lemma digit_normal (c : ascii) :
  Py.is_digit c = true -> Py.lower_char c = c /\ Ascii.eqb c " " = false.
Proof. destruct c as [[] [] [] [] [] [] [] []]; simpl; intros E; try discriminate E; now split. Qed.

Lemma digits_normal (ds r : string) :
  Py.all_digits ds = true ->
  Py.remove_char " " (Py.lower (ds ++ r)) = (ds ++ Py.remove_char " " (Py.lower r))%string.
Proof.
  induction ds as [|c ds IH]; simpl; intros Hd; [reflexivity|].
  apply andb_true_iff in Hd as [Hc Hd].
  destruct (digit_normal c Hc) as [Hl Hs].
  now rewrite Hl, Hs, (IH Hd).
Qed.

Lemma component_normal (o : option string) (u : ascii) (r : string) :
  count_ok o -> Py.lower_char u = u -> Ascii.eqb u " " = false ->
  Py.remove_char " " (Py.lower (component o u ++ r))
  = (component o u ++ Py.remove_char " " (Py.lower r))%string.
Proof.
  intros Ho Hl Hs. destruct o as [ds|]; simpl; [|reflexivity].
  destruct Ho as [_ Hall].
  rewrite append_assoc, (digits_normal ds _ Hall). simpl.
  now rewrite Hl, Hs, append_assoc.
Qed.

Lemma int_acc_nonneg (s : string) : forall acc, 0 <= acc -> 0 <= Py.int_acc acc s.
Proof.
  induction s as [|c s IH]; cbn [Py.int_acc]; intros acc Hacc; [exact Hacc|].
  apply IH. pose proof (Nat2Z.is_nonneg (nat_of_ascii c - 48)). lia.
Qed.

Lemma time_param_nonneg (o : option string) : 0 <= time_param o.
Proof.
  destruct o as [[|c ds]|]; cbn [time_param]; try lia.
  apply (int_acc_nonneg (String c ds)). lia.
Qed.

(** ** Worlds *)

Section Worlds.

Context `{PyFloat}.

Lemma replay_app (a b : list fs_op) (d : fs) : replay (a ++ b) d = replay b (replay a d).
Proof. apply fold_left_app. Qed.

Lemma replay_cons (o : fs_op) (ops : list fs_op) (d : fs) :
  replay (o :: ops) d = replay ops (apply_op o d).
Proof. reflexivity. Qed.

Lemma after_nil (w : world) : after w [] [] [] = w.
Proof. destruct w; unfold after; simpl. now rewrite !app_nil_r. Qed.

Lemma after_after (w : world) a b c a' b' c' :
  after (after w a b c) a' b' c' = after w (a ++ a') (b ++ b') (c ++ c').
Proof. unfold after; simpl. now rewrite replay_app, !app_assoc. Qed.

Lemma bind_Return {A B} (m : M A) (k : A -> M B) (w w' : world) (a : A) :
  m w = (Return a, w') -> bind m k w = k a w'.
Proof. intros E. unfold bind. now rewrite E. Qed.

Lemma bind_Raise {A B} (m : M A) (k : A -> M B) (w w' : world) (x : exn) :
  m w = (Raise x, w') -> bind m k w = (Raise x, w').
Proof. intros E. unfold bind. now rewrite E. Qed.

Lemma print_after (m : message) (w : world) : print m w = (Return tt, after w [] [m] []).
Proof. unfold print, after; simpl. now rewrite !app_nil_r. Qed.

Lemma do_op_after (o : fs_op) (w : world) : do_op o w = (Return tt, after w [o] [] []).
Proof. unfold do_op, after; simpl. now rewrite !app_nil_r. Qed.



Lemma open_a_ok (p : path) (w : world) :
  parent_exists (disk w) p = true ->
  open_a p w = (Return tt, after w [op_open_a p] [] []).
Proof. intros E. unfold open_a. rewrite E. apply do_op_after. Qed.

Lemma open_w_ok (p : path) (w : world) :
  parent_exists (disk w) p = true ->
  open_w p w = (Return tt, after w [op_open_w p] [] []).
Proof. intros E. unfold open_w. rewrite E. apply do_op_after. Qed.

Lemma open_r_some (p : path) (w : world) (c : string) :
  lookup (disk w) p = Some c -> open_r p w = (Return tt, w).
Proof. intros E. unfold open_r. now rewrite E. Qed.

Lemma read_some (p : path) (w : world) (c : string) :
  lookup (disk w) p = Some c -> read p w = (Return (Py.universal_newlines c), w).
Proof. intros E. unfold read, content. now rewrite E. Qed.

(** Writing the PID file, whatever the handler. *)
Lemma write_pid_file (data : string) (handler : exn -> option (M unit)) (w : world) :
  try_except (bind (open_w pid_file)
                   (fun _ => bind (write pid_file data) (fun _ => close pid_file)))
             handler w
  = (Return tt, after w [op_open_w pid_file; op_write pid_file data] [] []).
Proof.
  unfold try_except, write, close.
  rewrite (bind_Return _ _ _ _ tt (open_w_ok pid_file w eq_refl)).
  rewrite (bind_Return _ _ _ _ tt (do_op_after _ _)).
  unfold ret. now rewrite after_after.
Qed.

Lemma readlines_some (p : path) (w : world) (c : string) :
  lookup (disk w) p = Some c ->
  readlines p w = (Return (Py.splitlines (Py.universal_newlines c)), w).
Proof.
  intros E. unfold readlines. now rewrite (bind_Return _ _ _ _ _ (read_some p w c E)).
Qed.

Lemma move_some (src dst : path) (w : world) (c : string) :
  lookup (disk w) src = Some c ->
  move src dst w = (Return tt, after w [op_move src dst] [] []).
Proof. intros E. unfold move. rewrite E. apply do_op_after. Qed.

Lemma remove_some (p : path) (w : world) (c : string) :
  lookup (disk w) p = Some c ->
  remove p w = (Return tt, after w [op_remove p] [] []).
Proof. intros E. unfold remove. rewrite E. apply do_op_after. Qed.

(** *** The duration parser *)

Lemma computed_total_nonneg (s : string) : 0 <= computed_total s.
Proof.
  unfold computed_total. destruct (regex_match _) as [parts|]; [|lia].
  pose proof (time_param_nonneg (days parts)).
  pose proof (time_param_nonneg (hours parts)).
  pose proof (time_param_nonneg (minutes parts)).
  pose proof (time_param_nonneg (seconds parts)).
  lia.
Qed.

Lemma regex_match_some (s : string) : regex_match s <> None.
Proof.
  unfold regex_match.
  destruct (match_group "d" s) as [d s1], (match_group "h" s1) as [h s2],
           (match_group "m" s2) as [m s3], (match_group "s" s3) as [sec s4].
  discriminate.
Qed.

Lemma parse_time_closed (s : string) (w : world) :
  computed_total s / 86400 <= max_days ->
  parse_time s w
  = if computed_total s <=? 0
    then (Return thirty_days, after w [] [msg_default_ttl] [])
    else (Return (computed_total s), w).
Proof.
  intros Hr. pose proof (computed_total_nonneg s) as Hn.
  unfold parse_time, computed_total, normal in *.
  destruct (regex_match _) as [parts|] eqn:E; [|now apply regex_match_some in E].
  unfold timedelta_of, mk_timedelta, lift, bind.
  set (total := _ + time_param (seconds parts)) in *.
  assert (Hq : 0 <= total / 86400) by (apply Z.div_pos; lia).
  replace (max_days <? total / 86400) with false by (symmetry; apply Z.ltb_ge; lia).
  replace (total / 86400 <? - max_days) with false
    by (symmetry; apply Z.ltb_ge; unfold max_days; lia).
  cbn [orb]. cbv beta iota. destruct (total <=? 0); [|reflexivity].
  rewrite print_after. reflexivity.
Qed.


Lemma computed_total_grammar (d h m s : option string) (rest : string) :
  count_ok d -> count_ok h -> count_ok m -> count_ok s ->
  ignored (normal rest) = true ->
  computed_total (component d "d" ++ component h "h" ++ component m "m"
                  ++ component s "s" ++ rest)
  = time_param d * 86400 + time_param h * 3600 + time_param m * 60 + time_param s.
Proof.
  intros Hd Hh Hm Hs Hr. unfold computed_total, normal in *.
  rewrite !component_normal by (assumption || reflexivity).
  now rewrite regex_match_grammar.
Qed.

End Worlds.

(** ** The sweep *)

Section Sweep.

Context `{PyFloat}.









Lemma clean_line_framed (e : env) (t : float) (line : string) (w : world) :
  framed w (snd (clean_line e t line w)).
Proof.
  unfold framed, clean_line, bind, unpack_line, to_float, ret, raise.
  destruct (Py.split1 " " (Py.strip Py.LF line)) as [|ts [|r [|]]]; simpl; auto.
  destruct (float_of_str ts) as [t'|]; simpl; auto.
  destruct (float_lt t t'); simpl.
  - repeat split; auto. intros _. discriminate.
  - unfold try_except, ufw_delete, bind, print, check_output, ufw_error, raise.
    destruct (dry_run e); simpl; auto.
    destruct (ufw e (ufw_calls w) _); simpl; auto.
Qed.

Lemma for_each_framed (e : env) (t : float) (ls : list string) :
  forall w, framed w (snd (for_each ls (clean_line e t) w)).
Proof.
  induction ls as [|l ls IH]; intros w.
  - simpl. unfold framed. auto.
  - cbn [for_each]. unfold bind.
    pose proof (clean_line_framed e t l w) as F.
    destruct (clean_line e t l w) as [[[]|x] w1]; simpl in F; [|exact F].
    pose proof (IH w1) as F'. unfold framed in *.
    destruct F as (F1 & F2 & F3), F' as (G1 & G2 & G3).
    repeat split; try congruence. auto.
Qed.

End Sweep.

Section SweepRuns.

Context `{PyFloat}.





(** With the lock taken, the sweep raises and touches nothing. *)
Lemma clean_locked (e : env) (w : world) (p : string) :
  pid (disk w) = Some p ->
  clean e w = (Raise (Exception "tmpufw is already running"), w).
Proof.
  intros Hpid. unfold clean.
  rewrite (bind_Return _ _ w w true) by (unfold exists_; simpl; now rewrite Hpid).
  reflexivity.
Qed.



End SweepRuns.

(** ** The installer *)

Section Install.

Context `{PyFloat}.

Lemma parse_time_after (ttl : string) (w : world) :
  computed_total ttl / 86400 <= max_days ->
  parse_time ttl w = (Return (ttl_seconds ttl), after w [] (ttl_msgs ttl) []).
Proof.
  intros Hr. rewrite (parse_time_closed ttl w Hr). unfold ttl_seconds, ttl_msgs.
  destruct (computed_total ttl <=? 0); [reflexivity|now rewrite after_nil].
Qed.

Lemma makedirs_after (w : world) :
  (if negb (rules_path (disk w)) then makedirs else ret tt) w
  = (Return tt, after w (dir_ops (disk w)) [] []).
Proof.
  unfold dir_ops. destruct (rules_path (disk w)); simpl.
  - unfold ret. now rewrite after_nil.
  - apply do_op_after.
Qed.

Lemma replay_dir_ops (d : fs) :
  replay (dir_ops d) d
  = {| pid := pid d; rules := rules d; tmp_rules := tmp_rules d; rules_path := true |}.
Proof. unfold dir_ops. destruct d as [a b c []]; reflexivity. Qed.

(** The start of every install: the directory, then the time to live. *)
Ltac install_start w Hr :=
  unfold install;
  rewrite (bind_Return _ _ w w (rules_path (disk w))) by reflexivity;
  rewrite (bind_Return _ _ _ _ tt (makedirs_after w));
  rewrite (bind_Return _ _ _ _ _ (parse_time_after _ _ Hr));
  rewrite after_after, !app_nil_r; cbn [app].

(** Without a rules file the first [open] raises. *)
Lemma install_no_ledger (e : env) (rule position ttl : string) (w : world) :
  computed_total ttl / 86400 <= max_days ->
  rules (disk w) = None ->
  install e rule position ttl w
  = (Raise IOError, after w (dir_ops (disk w)) (ttl_msgs ttl) []).
Proof.
  intros Hr Hn. install_start w Hr.
  apply bind_Raise. unfold open_r. cbn [disk after]. rewrite replay_dir_ops.
  simpl. now rewrite Hn.
Qed.

Lemma refresh_loop (timestamp : float) (rule : string) (ls : list string) :
  forall w,
    for_each ls (fun line =>
      if Py.contains rule line
      then bind (write tmp_rules_file (ledger_line timestamp rule))
                (fun _ => write tmp_rules_file Py.nl)
      else write tmp_rules_file line) w
    = (Return tt, after w (flat_map (refresh_ops timestamp rule) ls) [] []).
Proof.
  induction ls as [|l ls IH]; intros w.
  - simpl. now rewrite after_nil.
  - cbn [for_each flat_map].
    rewrite (bind_Return _ _ w (after w (refresh_ops timestamp rule l) [] []) tt).
    + rewrite IH, after_after. reflexivity.
    + unfold refresh_ops, write. destruct (Py.contains rule l).
      * rewrite (bind_Return _ _ _ _ tt (do_op_after _ _)).
        rewrite do_op_after, after_after. reflexivity.
      * apply do_op_after.
Qed.

Lemma replay_refresh_ops (timestamp : float) (rule : string) (ls : list string) :
  forall d x, tmp_rules d = Some x ->
    replay (flat_map (refresh_ops timestamp rule) ls) d
    = store tmp_rules_file (Some (x ++ text_of (map (refresh timestamp rule) ls))) d.
Proof.
  induction ls as [|l ls IH]; intros d x E.
  - simpl. rewrite append_nil_r. destruct d; simpl in *. now rewrite E.
  - cbn [flat_map map text_of]. rewrite replay_app.
    unfold refresh_ops at 2, refresh at 1. destruct (Py.contains rule l).
    + simpl replay at 2. unfold content. simpl lookup. rewrite E. simpl lookup.
      rewrite (IH _ ((x ++ ledger_line timestamp rule) ++ Py.nl)%string) by reflexivity.
      simpl. now rewrite !append_assoc.
    + simpl replay at 2. unfold content. simpl lookup. rewrite E.
      rewrite (IH _ (x ++ l)%string) by reflexivity.
      simpl. now rewrite append_assoc.
Qed.

Lemma replay_update_ops (d : fs) (timestamp : float) (rule : string) :
  replay (update_ops d timestamp rule) d
  = {| pid := pid d;
       rules := Some (text_of (map (refresh timestamp rule) (ledger d)));
       tmp_rules := None;
       rules_path := true |}.
Proof.
  unfold update_ops. rewrite !replay_app, replay_dir_ops.
  rewrite (replay_refresh_ops _ _ _ _ EmptyString) by reflexivity.
  reflexivity.
Qed.

(** When the text of the ledger contains the rule, the installer rewrites the
    ledger through the temporary file and exits; the firewall is not called. *)
Lemma install_update (e : env) (rule position ttl : string) (w : world) (c : string) :
  computed_total ttl / 86400 <= max_days ->
  rules (disk w) = Some c ->
  Py.contains rule (Py.universal_newlines c) = true ->
  install e rule position ttl w
  = (Raise (SystemExit 0),
     after w (update_ops (disk w) (expires_at e ttl) rule) (ttl_msgs ttl ++ [msg_exists]) []).
Proof.
  intros Hr Hc Hin. install_start w Hr.
  set (w1 := after w (dir_ops (disk w)) (ttl_msgs ttl) []).
  assert (E : rules (disk w1) = Some c).
  { unfold w1. cbn [disk after]. now rewrite replay_dir_ops. }
  rewrite (bind_Return _ _ w1 w1 tt) by (now apply (open_r_some _ _ c)).
  rewrite (bind_Return _ _ w1 w1 (Py.universal_newlines c)) by (now apply read_some).
  apply bind_Raise. rewrite Hin.
  rewrite (bind_Return _ _ _ _ tt (print_after _ _)).
  set (w2 := after w1 [] [msg_exists] []).
  assert (E2 : lookup (disk w2) rules_file = Some c) by exact E.
  rewrite (bind_Return _ _ w2 w2 tt) by reflexivity.
  rewrite (bind_Return _ _ w2 w2 tt) by (now apply (open_r_some _ _ c)).
  set (w2' := after w2 [op_open_w tmp_rules_file] [] []).
  rewrite (bind_Return _ _ w2 w2' tt)
    by (unfold open_w; simpl parent_exists; apply do_op_after).
  rewrite (bind_Return _ _ w2' w2' (ledger (disk w)))
    by (unfold ledger; rewrite Hc; apply readlines_some; exact E).
  rewrite (bind_Return _ _ _ _ tt (refresh_loop _ _ _ _)).
  unfold w2'. rewrite after_after. cbn [app].
  set (w3 := after w2 _ [] []).
  rewrite (bind_Return _ _ w3 w3 tt) by reflexivity.
  rewrite (bind_Return _ _ w3 w3 tt) by reflexivity.
  rewrite (bind_Return _ _ w3 (after w3 [op_move tmp_rules_file rules_file] [] []) tt).
  - unfold exit, raise, w3, w2, w1, update_ops. rewrite !after_after. simpl.
    rewrite ?app_nil_r. reflexivity.
  - apply (move_some _ _ _ (text_of (map (refresh (expires_at e ttl) rule) (ledger (disk w))))).
    unfold w3. cbn [disk after]. rewrite replay_cons.
    rewrite (replay_refresh_ops _ _ _ _ EmptyString) by reflexivity.
    reflexivity.
Qed.

(** When the text of the ledger does not contain the rule, the installer
    appends a line to the rules file itself and then calls the firewall. *)
Lemma install_append (e : env) (rule position ttl : string) (w : world) (c : string) :
  computed_total ttl / 86400 <= max_days ->
  rules (disk w) = Some c ->
  Py.contains rule (Py.universal_newlines c) = false ->
  install e rule position ttl w
  = insert_result e position rule
      (after w (dir_ops (disk w) ++ append_ops (expires_at e ttl) rule) (ttl_msgs ttl) []).
Proof.
  intros Hr Hc Hin. install_start w Hr.
  set (w1 := after w (dir_ops (disk w)) (ttl_msgs ttl) []).
  assert (E : rules (disk w1) = Some c).
  { unfold w1. cbn [disk after]. now rewrite replay_dir_ops. }
  assert (P : rules_path (disk w1) = true).
  { unfold w1. cbn [disk after]. now rewrite replay_dir_ops. }
  rewrite (bind_Return _ _ w1 w1 tt) by (now apply (open_r_some _ _ c)).
  rewrite (bind_Return _ _ w1 w1 (Py.universal_newlines c)) by (now apply read_some).
  rewrite Hin. rewrite (bind_Return _ _ w1 w1 tt) by reflexivity.
  rewrite (bind_Return _ _ w1 w1 tt) by reflexivity.
  set (w2 := after w1 (append_ops (expires_at e ttl) rule) [] []).
  rewrite (bind_Return _ _ w1 w2 tt).
  2:{ unfold try_except, write, close.
      rewrite (bind_Return _ _ _ _ tt (open_a_ok rules_file w1 P)).
      rewrite (bind_Return _ _ _ _ tt (do_op_after _ _)).
      rewrite (bind_Return _ _ _ _ tt (do_op_after _ _)).
      unfold ret. rewrite !after_after. reflexivity. }
  replace (after w (dir_ops (disk w) ++ append_ops (expires_at e ttl) rule) (ttl_msgs ttl) [])
    with w2 by (unfold w2, w1; rewrite after_after; now rewrite app_nil_r).
  unfold try_except, ufw_insert, insert_result, insert_command.
  destruct (dry_run e); [apply print_after|].
  unfold check_output at 1.
  destruct (ufw e (ufw_calls w2) _) as [output|] eqn:U.
  - fold invalid_position_1. destruct (String.eqb output invalid_position_1).
    + unfold check_output. cbn [ufw_calls].
      destruct (ufw e _ _); unfold after; simpl; now rewrite !app_nil_r, <- ?app_assoc.
    + unfold raise, after; simpl. now rewrite !app_nil_r.
  - unfold after; simpl. now rewrite !app_nil_r.
Qed.

(** The call of the firewall leaves the files as they are. *)
Lemma insert_result_disk (e : env) (position rule : string) (w : world) :
  oplog (snd (insert_result e position rule w)) = oplog w
  /\ disk (snd (insert_result e position rule w)) = disk w.
Proof.
  unfold insert_result.
  destruct (dry_run e); [cbn; now rewrite app_nil_r|].
  destruct (ufw e (ufw_calls w) _) as [o|]; [|cbn; now rewrite app_nil_r].
  destruct (String.eqb o invalid_position_1); [|cbn; now rewrite app_nil_r].
  destruct (ufw e _ _); cbn; now rewrite app_nil_r.
Qed.

(** When the firewall is called, the insertion is the first command. *)
Lemma insert_result_calls (e : env) (position rule : string) (w : world) :
  dry_run e = false ->
  exists more,
    ufw_calls (snd (insert_result e position rule w))
    = (ufw_calls w ++ insert_command position rule :: more)%list.
Proof.
  intros D. unfold insert_result. rewrite D.
  destruct (ufw e (ufw_calls w) _) as [o|]; [|now exists []].
  destruct (String.eqb o invalid_position_1); [|now exists []].
  destruct (ufw e _ _); now exists ["ufw " ++ rule].
Qed.

Lemma replay_append_ops (d : fs) (c : string) (x : float) (rule : string) :
  rules d = Some c ->
  rules (replay (dir_ops d ++ append_ops x rule) d)
  = Some (c ++ ledger_line x rule ++ Py.nl).
Proof.
  intros Hc. rewrite replay_app, replay_dir_ops.
  unfold append_ops, replay. simpl. unfold content. simpl. rewrite Hc.
  now rewrite append_assoc.
Qed.

(** When one line of the ledger contains the rule and no other does, the
    installer refreshes that line and leaves the others as they are. *)
Lemma install_refreshes_single_match
      (e : env) (rule position ttl : string) (w : world) (c : string)
      (pre post : list string) (line : string) :
  computed_total ttl / 86400 <= max_days ->
  rules (disk w) = Some c ->
  ledger (disk w) = (pre ++ line :: post)%list ->
  Py.contains rule line = true ->
  Forall (fun l => Py.contains rule l = false) (pre ++ post) ->
  exists w',
    install e rule position ttl w = (Raise (SystemExit 0), w')
    /\ rules (disk w')
       = Some (text_of (pre ++ (ledger_line (expires_at e ttl) rule ++ Py.nl) :: post))
    /\ ufw_calls w' = ufw_calls w.
Proof.
  intros Hr Hc Hl Hin Hno.
  assert (T : Py.contains rule (Py.universal_newlines c) = true).
  { rewrite <- (text_of_splitlines (Py.universal_newlines c)).
    unfold ledger in Hl. rewrite Hc in Hl. rewrite Hl, text_of_app.
    apply contains_app_r. cbn [text_of]. now apply contains_app_l. }
  eexists. split; [apply (install_update e rule position ttl w c Hr Hc T)|].
  cbn [disk ufw_calls after]. rewrite replay_update_ops, app_nil_r. cbn [rules].
  split; [|reflexivity].
  apply Forall_app in Hno as [Hpre Hpost].
  assert (I : forall ls, Forall (fun l => Py.contains rule l = false) ls ->
                         map (refresh (expires_at e ttl) rule) ls = ls).
  { intros ls F. induction F as [|l ls Hl' F IH]; [reflexivity|].
    cbn [map]. unfold refresh at 1. now rewrite Hl', IH. }
  rewrite Hl, map_app. cbn [map]. rewrite (I _ Hpre), (I _ Hpost).
  unfold refresh. now rewrite Hin.
Qed.

(** *** Entries and the lines that contain their rule *)

Lemma parse_line_fields (l : string) (t : float) (rule : string) :
  parse_line l = Some (t, rule) ->
  exists ts, Py.strip Py.LF l = (ts ++ " " ++ rule)%string /\ float_of_str ts = Some t.
Proof.
  unfold parse_line.
  destruct (Py.split1 " " (Py.strip Py.LF l)) as [|ts [|r [|]]] eqn:S; try discriminate.
  destruct (float_of_str ts) as [t'|] eqn:F; [|discriminate].
  intros [= <- <-]. exists ts. split; [|exact F].
  now apply split1_two in S.
Qed.

Lemma rule_in_line (l : string) (t : float) (rule : string) :
  parse_line l = Some (t, rule) -> Py.contains rule l = true.
Proof.
  intros P. destruct (parse_line_fields l t rule P) as (ts & E & _).
  destruct (strip_decomp Py.LF l) as (k1 & k2 & D). rewrite D, E.
  apply contains_app_r, contains_app_l, contains_app_r.
  change (" " ++ rule)%string with (String " " rule).
  cbn [Py.contains]. rewrite contains_refl. apply orb_true_r.
Qed.

Lemma rule_of_contains (l rule : string) :
  rule_of l = rule -> Py.contains rule l = true.
Proof.
  unfold rule_of. destruct (parse_line l) as [[t r]|] eqn:P.
  - intros <-. now apply (rule_in_line l t).
  - intros <-. now destruct l.
Qed.

Lemma entries_of_none (rule : string) (ls : list string) :
  Forall (fun l => Py.contains rule l = false) ls -> entries_of rule ls = [].
Proof.
  intros F. induction F as [|l ls Hl F IH]; [reflexivity|].
  unfold entries_of in *. cbn [filter]. rewrite IH.
  destruct (String.eqb (rule_of l) rule) eqn:E; [|reflexivity].
  apply String.eqb_eq, rule_of_contains in E. congruence.
Qed.

(** A line the installer writes reads back as the entry it stands for. *)
Lemma parse_ledger_line (x : float) (rule : string) :
  printable x -> Py.free_of Py.LF rule = true ->
  parse_line (ledger_line x rule ++ Py.nl) = Some (x, rule).
Proof.
  intros (R & Fs & Fl & _) Fr. unfold parse_line, ledger_line.
  rewrite strip_line.
  - change (" " ++ rule)%string with (String " " rule).
    now rewrite (split1_app " " _ rule Fs), R.
  - rewrite !free_of_app, Fl, Fr. reflexivity.
Qed.

(** The rule of an entry of a ledger has no line feed and no carriage
    return. *)
Lemma rule_of_entry_free (c l : string) (t : float) (rule : string) :
  In l (Py.splitlines (Py.universal_newlines c)) ->
  parse_line l = Some (t, rule) ->
  Py.free_of Py.LF rule = true /\ Py.free_of Py.CR rule = true.
Proof.
  intros I P. destruct (parse_line_fields l t rule P) as (ts & E & _). split.
  - pose proof (strip_of_line l (proper_In _ l (splitlines_proper _) I)) as F.
    rewrite E, !free_of_app in F.
    apply andb_true_iff in F as [_ F]. now apply andb_true_iff in F as [_ F].
  - pose proof (universal_newlines_free c) as U.
    rewrite <- (text_of_splitlines (Py.universal_newlines c)), free_of_text_of in U.
    pose proof (proj1 (forallb_forall _ _) U l I) as F.
    destruct (strip_decomp Py.LF l) as (k1 & k2 & D).
    rewrite D, E, !free_of_app in F.
    apply andb_true_iff in F as [_ F]. apply andb_true_iff in F as [F _].
    apply andb_true_iff in F as [_ F]. now apply andb_true_iff in F as [_ F].
Qed.

(** A ledger in which a line is replaced by a line the installer writes
    reads back as it is. *)
Lemma refreshed_ledger_reads_back (c : string) (pre post : list string)
      (l : string) (x : float) (rule : string) :
  Py.splitlines (Py.universal_newlines c) = (pre ++ l :: post)%list ->
  printable x ->
  Py.free_of Py.LF rule = true -> Py.free_of Py.CR rule = true ->
  Py.splitlines (Py.universal_newlines
                   (text_of (pre ++ (ledger_line x rule ++ Py.nl)%string :: post)))
  = (pre ++ (ledger_line x rule ++ Py.nl)%string :: post)%list.
Proof.
  intros S (_ & _ & Fl & Fc) Rl Rc.
  assert (U : forallb (Py.free_of Py.CR) (pre ++ l :: post) = true).
  { rewrite <- S, <- free_of_text_of, text_of_splitlines. apply universal_newlines_free. }
  rewrite forallb_app in U. cbn [forallb] in U.
  apply andb_true_iff in U as [Upre U]. apply andb_true_iff in U as [_ Upost].
  rewrite universal_newlines_id.
  - apply splitlines_text_of.
    apply (proper_replace pre post l); [rewrite <- S; apply splitlines_proper|].
    apply complete_line. unfold ledger_line. rewrite !free_of_app, Fl, Rl. reflexivity.
  - rewrite free_of_text_of, forallb_app. cbn [forallb].
    rewrite Upre, Upost. unfold ledger_line. rewrite !free_of_app, Fc, Rc. reflexivity.
Qed.

End Install.

(** * The claims *)

Section Claims.

Context `{PyFloat}.










(** C6 (the code at the failing input, for every input of that kind).  With
    no rules file the installer creates the directory if it is missing and
    then raises at [open(rules_file, "r")]: no rules file is created, no
    entry is written and the firewall is not called. *)
Theorem install_without_ledger_raises
        (e : env) (rule position ttl : string) (w : world) :
  computed_total ttl / 86400 <= max_days ->
  rules (disk w) = None ->
  exists w',
    install e rule position ttl w = (Raise IOError, w')
    /\ rules (disk w') = None
    /\ rules_path (disk w') = true
    /\ ufw_calls w' = ufw_calls w.
Proof.
  intros Hr Hn. eexists. split; [now apply install_no_ledger|].
  cbn [disk ufw_calls after]. rewrite replay_dir_ops, app_nil_r. auto.
Qed.

(** C8 (amended).  When the rule is not in the ledger and the firewall
    rejects the insertion, the installer runs the fallback "ufw <rule>" once,
    and only when the output of the firewall is exactly
    "ERROR: Invalid position '1'": then the installer ends as the fallback
    does, returning when it succeeds and raising its [CalledProcessError]
    when it fails.  On any other output, an invalid position other than 1
    included, it raises "ufw: " and the output without another command.  The
    line appended to the ledger stays in both cases. *)
Theorem insert_retried_on_invalid_position_1_only
        (e : env) (rule position ttl : string) (w : world) (c output : string) :
  dry_run e = false ->
  computed_total ttl / 86400 <= max_days ->
  rules (disk w) = Some c ->
  Py.contains rule (Py.universal_newlines c) = false ->
  ufw e (ufw_calls w) (insert_command position rule) = Some output ->
  let w1 := after w (dir_ops (disk w) ++ append_ops (expires_at e ttl) rule)
                  (ttl_msgs ttl) [insert_command position rule] in
  rules (disk w1) = Some (c ++ ledger_line (expires_at e ttl) rule ++ Py.nl)
  /\ install e rule position ttl w
     = if String.eqb output invalid_position_1 then
         match ufw e (ufw_calls w ++ [insert_command position rule]) ("ufw " ++ rule) with
         | None => (Return tt, after w1 [] [] ["ufw " ++ rule])
         | Some output' =>
             (Raise (CalledProcessError output'), after w1 [] [] ["ufw " ++ rule])
         end
       else (Raise (Exception ("ufw: " ++ output)), w1).
Proof.
  intros D Hr Hc Hin Hu w1. split.
  { unfold w1. cbn [disk after]. now apply replay_append_ops. }
  rewrite (install_append e rule position ttl w c Hr Hc Hin).
  unfold insert_result. rewrite D. cbn [ufw_calls after]. rewrite !app_nil_r, Hu.
  unfold w1. rewrite !after_after, !app_nil_r. cbn [app].
  destruct (String.eqb output invalid_position_1); [|reflexivity].
  destruct (ufw e _ _); reflexivity.
Qed.









(** C1 (amended).  When the ledger holds an entry for the rule and no other
    line of it contains the rule, installing the rule again, with a time to
    live within the range of the parser, takes the update path: the entry
    is replaced, in its place, by an entry for the rule that expires at
    [now] plus the time to live, the other lines stay as they are, so that
    the ledger holds exactly one entry for the rule, and the firewall is not
    called. *)
Theorem install_again_refreshes_entry
        (e : env) (rule position ttl : string) (w : world) (c : string)
        (pre post : list string) (line : string) (t0 : float) :
  computed_total ttl / 86400 <= max_days ->
  rules (disk w) = Some c ->
  ledger (disk w) = (pre ++ line :: post)%list ->
  parse_line line = Some (t0, rule) ->
  Forall (fun l => Py.contains rule l = false) (pre ++ post) ->
  printable (expires_at e ttl) ->
  let entry := (ledger_line (expires_at e ttl) rule ++ Py.nl)%string in
  exists w',
    install e rule position ttl w = (Raise (SystemExit 0), w')
    /\ ledger (disk w') = (pre ++ entry :: post)%list
    /\ parse_line entry = Some (expires_at e ttl, rule)
    /\ entries_of rule (ledger (disk w')) = [entry]
    /\ ufw_calls w' = ufw_calls w.
Proof.
  intros Hr Hc Hl P Hno Hx entry.
  assert (S : Py.splitlines (Py.universal_newlines c) = (pre ++ line :: post)%list)
    by (unfold ledger in Hl; now rewrite Hc in Hl).
  destruct (rule_of_entry_free c line t0 rule) as [Rl Rc];
    [rewrite S; apply in_or_app; right; now left|exact P|].
  destruct (install_refreshes_single_match e rule position ttl w c pre post line
              Hr Hc Hl (rule_in_line _ _ _ P) Hno) as (w' & E & R & U).
  assert (L : ledger (disk w') = (pre ++ entry :: post)%list).
  { unfold ledger. rewrite R.
    now apply (refreshed_ledger_reads_back c pre post line). }
  assert (Pe : parse_line entry = Some (expires_at e ttl, rule))
    by (now apply parse_ledger_line).
  exists w'. refine (conj E (conj L (conj Pe (conj _ U)))).
  rewrite L. apply Forall_app in Hno as [Hpre Hpost].
  unfold entries_of. rewrite filter_app. cbn [filter].
  fold (entries_of rule pre). fold (entries_of rule post).
  rewrite (entries_of_none _ _ Hpre), (entries_of_none _ _ Hpost).
  unfold rule_of. rewrite Pe, String.eqb_refl. reflexivity.
Qed.

(** C5 (what the code does, at the failing input and everywhere else).  The
    installer takes the rule for a rule of the ledger exactly when the text
    of the rules file contains it as a substring.  Then it rewrites each line
    that contains the rule into an entry for the rule, appends nothing and
    does not call the firewall.  Otherwise it appends an entry for the rule to
    the rules file and, unless in a dry run, calls the firewall, the
    insertion first. *)
Theorem install_matches_by_substring
        (e : env) (rule position ttl : string) (w : world) (c : string) :
  computed_total ttl / 86400 <= max_days ->
  rules (disk w) = Some c ->
  exists r w',
    install e rule position ttl w = (r, w')
    /\ if Py.contains rule (Py.universal_newlines c)
       then r = Raise (SystemExit 0)
            /\ rules (disk w')
               = Some (text_of (map (refresh (expires_at e ttl) rule) (ledger (disk w))))
            /\ ufw_calls w' = ufw_calls w
       else rules (disk w') = Some (c ++ ledger_line (expires_at e ttl) rule ++ Py.nl)
            /\ (dry_run e = false ->
                exists more,
                  ufw_calls w' = (ufw_calls w ++ insert_command position rule :: more)%list).
Proof.
  intros Hr Hc. destruct (Py.contains rule (Py.universal_newlines c)) eqn:T.
  - do 2 eexists. split; [apply (install_update e rule position ttl w c Hr Hc T)|].
    cbn [disk ufw_calls after]. rewrite replay_update_ops, app_nil_r. auto.
  - exists (fst (install e rule position ttl w)), (snd (install e rule position ttl w)).
    split; [now destruct (install e rule position ttl w)|].
    rewrite (install_append e rule position ttl w c Hr Hc T).
    set (w2 := after w _ _ _).
    destruct (insert_result_disk e position rule w2) as [_ D]. rewrite D.
    split; [unfold w2; cbn [disk after]; now apply replay_append_ops|].
    intros L. destruct (insert_result_calls e position rule w2 L) as [more E].
    exists more. rewrite E. unfold w2. cbn [ufw_calls after]. now rewrite app_nil_r.
Qed.

End Claims.

(** * The claims on concrete runs *)

#[local] Existing Instance Whole.seconds.

(** Counterexample to C1.  The ledger tracks "allow from 10.0.0.1" once, and
    "allow from 10.0.0.10": installing the first rule again rewrites both
    lines, and the ledger then holds two entries for the rule.  And on the
    ledger of the first rule alone, installing it again for a billion days
    raises [OverflowError] and leaves the entry with its old expiration. *)
Lemma install_again_breaks_single_entry :
  (entries_of Run.ssh_1 (ledger (Run.with_ledger Run.both_ssh)) = [Run.line "500.0" Run.ssh_1]
   /\ fst Run.reinstall_ssh_1 = Raise (SystemExit 0)
   /\ entries_of Run.ssh_1 (ledger (disk (snd Run.reinstall_ssh_1)))
      = [Run.line "87400.0" Run.ssh_1; Run.line "87400.0" Run.ssh_1])
  /\ (fst Run.reinstall_forever = Raise OverflowError
      /\ ledger (disk (snd Run.reinstall_forever)) = [Run.line "500.0" Run.ssh_1]).
Proof. repeat split; vm_compute; reflexivity. Qed.

(** Witness of C1: the rule is tracked by the second of three lines. *)
Lemma install_again_refreshes_entry_witness :
  exists w',
    install (Run.live Run.accepting 1000) "allow 22" "1" "2h30m"
            (start (Run.with_ledger Run.three_rules))
    = (Raise (SystemExit 0), w')
    /\ ledger (disk w')
       = [Run.line "1100.0" "allow 443"; Run.line "10000.0" "allow 22";
          Run.line "200.0" "allow 80"]
    /\ ufw_calls w' = [].
Proof.
  assert (R : computed_total "2h30m" / 86400 <= max_days) by (vm_compute; discriminate).
  destruct (install_again_refreshes_entry
              (Run.live Run.accepting 1000) "allow 22" "1" "2h30m"
              (start (Run.with_ledger Run.three_rules)) Run.three_rules
              [Run.line "1100.0" "allow 443"] [Run.line "200.0" "allow 80"]
              (Run.line "100.0" "allow 22") 100 R eq_refl eq_refl eq_refl)
    as (w' & E & L & _ & _ & U).
  - repeat constructor.
  - repeat split.
  - exists w'. split; [exact E|]. split; [rewrite L; reflexivity|exact U].
Defined.

(** Witness of C5, at the failing input.  The ledger tracks
    "allow from 10.0.0.10" only.  Installing "allow from 10.0.0.1", another
    rule that is a substring of it, is taken for an update: no entry is
    appended, the entry of the tracked rule is overwritten with the new rule,
    and the firewall is not called. *)
Lemma install_matches_by_substring_witness :
  Run.ssh_1 <> Run.ssh_10
  /\ map rule_of (ledger (Run.with_ledger Run.only_ssh_10)) = [Run.ssh_10]
  /\ exists w',
      Run.install_ssh_1 = (Raise (SystemExit 0), w')
      /\ ledger (disk w') = [Run.line "87400.0" Run.ssh_1]
      /\ ufw_calls w' = [].
Proof.
  split; [discriminate|]. split; [reflexivity|].
  assert (R : computed_total "1d" / 86400 <= max_days) by (vm_compute; discriminate).
  destruct (install_matches_by_substring
              (Run.live Run.accepting 1000) Run.ssh_1 "1" "1d"
              (start (Run.with_ledger Run.only_ssh_10)) Run.only_ssh_10 R eq_refl)
    as (r & w' & E & T).
  change (Py.contains Run.ssh_1 (Py.universal_newlines Run.only_ssh_10)) with true in T.
  destruct T as (-> & L & U).
  exists w'. split; [exact E|]. split; [|exact U].
  unfold ledger. rewrite L. reflexivity.
Defined.

(** Witness of C6: a first install on a fresh host. *)
Lemma install_without_ledger_raises_witness :
  rules Run.fresh = None
  /\ exists w', Run.first_install = (Raise IOError, w') /\ rules (disk w') = None.
Proof.
  split; [reflexivity|].
  destruct (install_without_ledger_raises (Run.live Run.accepting 1000) Run.ssh_1 "1" "1d"
              (start Run.fresh))
    as (w' & E & R & _).
  - vm_compute. discriminate.
  - reflexivity.
  - exists w'. split; [exact E|exact R].
Defined.









(** Counterexample to C8: the firewall has no position 2; the installer
    raises, and the fallback "ufw allow 22" is not run. *)
Lemma invalid_position_2_not_retried :
  Run.no_position_2 [] "ufw insert 2 allow 22" = Some Run.invalid_position_2
  /\ fst Run.install_at_2 = Raise (Exception ("ufw: " ++ Run.invalid_position_2))
  /\ ufw_calls (snd Run.install_at_2) = ["ufw insert 2 allow 22"]
  /\ ~ In "ufw allow 22" (ufw_calls (snd Run.install_at_2)).
Proof.
  repeat split; try (vm_compute; reflexivity).
  vm_compute. intros [E|[]]. discriminate E.
Qed.

(** Witness of C8: the firewall has no position 1, and the fallback is run. *)
Lemma insert_retried_on_invalid_position_1_only_witness :
  install (Run.live Run.no_position_1 1000) "allow 22" "1" "1d"
          (start (Run.with_ledger Run.only_ssh_10))
  = (Return tt,
     after (start (Run.with_ledger Run.only_ssh_10))
           (append_ops 87400 "allow 22") [] ["ufw insert 1 allow 22"; "ufw allow 22"]).
Proof.
  assert (R : computed_total "1d" / 86400 <= max_days) by (vm_compute; discriminate).
  destruct (insert_retried_on_invalid_position_1_only
              (Run.live Run.no_position_1 1000) "allow 22" "1" "1d"
              (start (Run.with_ledger Run.only_ssh_10)) Run.only_ssh_10 invalid_position_1
              eq_refl R eq_refl eq_refl eq_refl)
    as [_ E].
  rewrite E. reflexivity.
Defined.



(** * Further properties *)

Section Status.

Context `{PyFloat}.



Lemma status_loop_same_files (ls : list string) :
  forall w,
    same_files w (snd (for_each ls (fun line =>
      bind (unpack_line line) (fun p =>
        bind (to_float (fst p)) (fun t => print (msg_status t (snd p))))) w)).
Proof.
  induction ls as [|l ls IH]; intros w.
  - simpl. unfold same_files. auto.
  - cbn [for_each]. unfold bind at 1.
    assert (B : same_files w (snd (bind (unpack_line l) (fun p =>
                  bind (to_float (fst p)) (fun t => print (msg_status t (snd p)))) w))).
    { unfold bind, unpack_line, to_float, ret, raise, print, same_files.
      destruct (Py.split1 " " (Py.strip Py.LF l)) as [|ts [|r [|]]]; simpl; auto.
      destruct (float_of_str ts); simpl; auto. }
    destruct (bind (unpack_line l) _ w) as [[[]|x] w1]; simpl in B; [|exact B].
    pose proof (IH w1) as B'. unfold same_files in *.
    destruct B as (B1 & B2 & B3), B' as (C1 & C2 & C3).
    repeat split; congruence.
Qed.

(** [--status] never changes a file and never runs a command, whatever the
    rules file holds; and with no rules file it raises
    "There are no rules to display" and prints nothing. *)
Theorem status_changes_nothing (w : world) :
  same_files w (snd (status w))
  /\ (rules (disk w) = None ->
      status w = (Raise (Exception "There are no rules to display"), w)).
Proof.
  split.
  - unfold status, bind at 1, exists_. cbv iota beta.
    destruct (lookup (disk w) rules_file) as [c|] eqn:R.
    + rewrite (bind_Return _ _ _ _ tt (print_after _ _)).
      set (w1 := after w [] [msg_status_header] []).
      assert (E : lookup (disk w1) rules_file = Some c) by exact R.
      rewrite (bind_Return _ _ w1 w1 tt) by (now apply (open_r_some _ _ c)).
      rewrite (bind_Return _ _ w1 w1 _ (readlines_some _ _ _ E)).
      pose proof (status_loop_same_files (Py.splitlines (Py.universal_newlines c)) w1) as S.
      unfold same_files in *. destruct S as (S1 & S2 & S3).
      rewrite S1, S2, S3. unfold w1. cbn. now rewrite !app_nil_r.
    + unfold raise, same_files. simpl. auto.
  - intros R. unfold status.
    rewrite (bind_Return _ _ w w false) by (unfold exists_; simpl; now rewrite R).
    reflexivity.
Qed.

End Status.

(** ** Dry runs *)

Section DryRun.

Context `{PyFloat}.

Lemma quiet_ret {A} (a : A) : runs_no_command (ret a).
Proof. intros w. reflexivity. Qed.

Lemma quiet_raise {A} (x : exn) : runs_no_command (@raise _ A x).
Proof. intros w. reflexivity. Qed.

Lemma quiet_bind {A B} (m : M A) (k : A -> M B) :
  runs_no_command m -> (forall a, runs_no_command (k a)) -> runs_no_command (bind m k).
Proof.
  intros Hm Hk w. unfold bind. specialize (Hm w).
  destruct (m w) as [[a|x] w1]; simpl in *; [|exact Hm].
  now rewrite (Hk a w1).
Qed.

Lemma quiet_try {A} (m : M A) (handler : exn -> option (M A)) :
  runs_no_command m ->
  (forall x h, handler x = Some h -> runs_no_command h) ->
  runs_no_command (try_except m handler).
Proof.
  intros Hm Hh w. unfold try_except. specialize (Hm w).
  destruct (m w) as [[a|x] w1]; simpl in *; [exact Hm|].
  destruct (handler x) as [h|] eqn:E; [|exact Hm].
  now rewrite (Hh x h E w1).
Qed.

Lemma quiet_for_each {A} (xs : list A) (body : A -> M unit) :
  (forall x, runs_no_command (body x)) -> runs_no_command (for_each xs body).
Proof.
  intros Hb. induction xs as [|x xs IH]; [apply quiet_ret|].
  cbn [for_each]. apply quiet_bind; auto.
Qed.

Lemma quiet_if {A} (b : bool) (m1 m2 : M A) :
  runs_no_command m1 -> runs_no_command m2 -> runs_no_command (if b then m1 else m2).
Proof. now destruct b. Qed.

Lemma quiet_print (m : message) : runs_no_command (print m).
Proof. intros w. reflexivity. Qed.

Lemma quiet_do_op (o : fs_op) : runs_no_command (do_op o).
Proof. intros w. reflexivity. Qed.

Lemma quiet_open_w (p : path) : runs_no_command (open_w p).
Proof. intros w. unfold open_w. now destruct (parent_exists (disk w) p). Qed.

Lemma quiet_open_a (p : path) : runs_no_command (open_a p).
Proof. intros w. unfold open_a. now destruct (parent_exists (disk w) p). Qed.

Lemma quiet_open_r (p : path) : runs_no_command (open_r p).
Proof. intros w. unfold open_r. now destruct (lookup (disk w) p). Qed.

Lemma quiet_move (src dst : path) : runs_no_command (move src dst).
Proof. intros w. unfold move. now destruct (lookup (disk w) src). Qed.

Lemma quiet_remove (p : path) : runs_no_command (remove p).
Proof. intros w. unfold remove. now destruct (lookup (disk w) p). Qed.

Lemma quiet_exists (p : path) : runs_no_command (exists_ p).
Proof. intros w. reflexivity. Qed.

Lemma quiet_read (p : path) : runs_no_command (read p).
Proof. intros w. reflexivity. Qed.

Lemma quiet_readlines (p : path) : runs_no_command (readlines p).
Proof. apply quiet_bind; [apply quiet_read|intros; apply quiet_ret]. Qed.

Lemma quiet_lift {A} (o : outcome A) : runs_no_command (lift o).
Proof. intros w. reflexivity. Qed.

Lemma quiet_unpack_line (line : string) : runs_no_command (unpack_line line).
Proof.
  unfold unpack_line.
  destruct (Py.split1 " " (Py.strip Py.LF line)) as [|ts [|r [|]]];
    (apply quiet_ret || apply quiet_raise).
Qed.

Lemma quiet_to_float (timestamp : string) : runs_no_command (to_float timestamp).
Proof.
  unfold to_float. destruct (float_of_str timestamp); (apply quiet_ret || apply quiet_raise).
Qed.

Lemma quiet_parse_time (time_str : string) : runs_no_command (parse_time time_str).
Proof.
  unfold parse_time. destruct (regex_match _); [|apply quiet_lift].
  apply quiet_bind; [apply quiet_lift|]. intros td.
  apply quiet_if; [|apply quiet_lift].
  apply quiet_bind; [apply quiet_print|intros; apply quiet_lift].
Qed.

Ltac quiet :=
  repeat first
    [ apply quiet_ret | apply quiet_raise | apply quiet_print | apply quiet_do_op
    | apply quiet_open_w | apply quiet_open_a | apply quiet_open_r
    | apply quiet_move | apply quiet_remove | apply quiet_exists
    | apply quiet_read | apply quiet_readlines | apply quiet_lift
    | apply quiet_unpack_line | apply quiet_to_float | apply quiet_parse_time
    | apply quiet_for_each; intros ?
    | apply quiet_bind; [|intros ?]
    | apply quiet_if ].

Lemma quiet_status : runs_no_command status.
Proof. unfold status. quiet. Qed.

Lemma quiet_clean (e : env) : dry_run e = true -> runs_no_command (clean e).
Proof.
  intros D. unfold clean. quiet.
  apply quiet_try.
  - unfold ufw_delete. rewrite D. quiet.
  - intros ex hd E. destruct ex; try discriminate E. injection E as <-.
    unfold ufw_error. quiet.
Qed.

Lemma quiet_install (e : env) (rule position ttl : string) :
  dry_run e = true -> runs_no_command (install e rule position ttl).
Proof.
  intros D. unfold install, exists_rules_path, makedirs, close, exit, write. quiet.
  - intros w. reflexivity.
  - apply quiet_try; [quiet|].
    intros ex hd E. destruct ex; try discriminate E. injection E as <-. quiet.
  - unfold ufw_insert. rewrite D. intros w. reflexivity.
Qed.

(** In a dry run the script runs no [ufw] command, whatever its arguments,
    the files and the outcome. *)
Theorem dry_run_runs_no_command (e : env) (a : args) (w : world) :
  dry_run e = true ->
  ufw_calls (snd (main e a w)) = ufw_calls w.
Proof.
  intros D. revert w. change (runs_no_command (main e a)). unfold main.
  apply quiet_bind; [apply quiet_if; [apply quiet_status|apply quiet_ret]|intros _].
  apply quiet_bind; [apply quiet_if; [now apply quiet_clean|apply quiet_ret]|intros _].
  destruct (arg_rule a) as [[|c r]|]; try apply quiet_ret.
  now apply quiet_install.
Qed.

End DryRun.

(** ** More on the sweep *)

Section SweepMore.

Context `{PyFloat}.


(** A sweep that raises leaves the rules file as it was, whatever the
    files hold and whatever the firewall answers. *)
Theorem failed_sweep_keeps_ledger (e : env) (w w' : world) (x : exn) :
  clean e w = (Raise x, w') ->
  rules (disk w') = rules (disk w).
Proof.
  unfold clean, bind at 1, exists_ at 1. cbv iota beta.
  destruct (lookup (disk w) pid_file) as [p|] eqn:P.
  { unfold raise. now intros [= _ <-]. }
  set (w1 := after w [op_open_w pid_file; op_write pid_file (getpid e)] [] []).
  rewrite (bind_Return _ _ w w1 tt) by apply write_pid_file.
  assert (R1 : rules (disk w1) = rules (disk w)) by reflexivity.
  assert (P1 : lookup (disk w1) pid_file = Some (getpid e)) by reflexivity.
  unfold bind at 1, exists_ at 1. cbv iota beta.
  destruct (lookup (disk w1) rules_file) as [c1|] eqn:R.
  - unfold bind at 1.
    rewrite (bind_Return _ _ _ _ tt (open_a_ok tmp_rules_file w1 eq_refl)).
    set (w2 := after w1 [op_open_a tmp_rules_file] [] []).
    rewrite (bind_Return _ _ _ _ _ (open_r_some rules_file w2 c1 R)).
    rewrite (bind_Return _ _ _ _ _ (readlines_some rules_file w2 c1 R)).
    unfold bind at 1.
    pose proof (for_each_framed e (now e) (Py.splitlines (Py.universal_newlines c1)) w2) as F.
    destruct (for_each _ _ w2) as [[[]|x'] w3]; destruct F as (F1 & F2 & F3);
      simpl in F1, F2, F3.
    + destruct (tmp_rules (disk w3)) as [t3|] eqn:T3;
        [|exfalso; apply F3; [discriminate|reflexivity]].
      rewrite (bind_Return _ _ w3 w3 tt) by reflexivity.
      rewrite (bind_Return _ _ w3 w3 tt) by reflexivity.
      rewrite (move_some tmp_rules_file rules_file w3 t3 T3).
      assert (P4 : lookup (disk (after w3 [op_move tmp_rules_file rules_file] [] []))
                          pid_file = Some (getpid e)).
      { cbn [disk after]. unfold replay. simpl. exact F1. }
      rewrite (remove_some _ _ _ P4). discriminate.
    + intros [= _ <-]. exact F2.
  - unfold bind at 1, ret at 1.
    rewrite (remove_some pid_file w1 (getpid e) P1). discriminate.
Qed.





End SweepMore.

(** ** More on the duration parser *)

Section ParserMore.

Context `{PyFloat}.


Lemma no_group_some (u v : ascii) (ds r : string) :
  count_ok (Some ds) -> Py.is_digit v = false -> Ascii.eqb v u = false ->
  match_group u (component (Some ds) v ++ r) = (None, component (Some ds) v ++ r).
Proof. intros [_ Hall] Hv Hne. now apply match_group_miss. Qed.

Lemma regex_match_after_seconds (d h m : option string) (ss rest : string) :
  count_ok d -> count_ok h -> count_ok m -> count_ok (Some ss) ->
  regex_match (component d "d" ++ component h "h" ++ component m "m"
               ++ component (Some ss) "s" ++ rest)
  = Some {| days := d; hours := h; minutes := m; seconds := Some ss |}.
Proof.
  intros Hd Hh Hm Hs. unfold regex_match.
  rewrite (match_group_component "d" d) by
    (try assumption; try reflexivity;
     repeat (first [apply no_group_some|apply no_group_component];
             try assumption; try reflexivity)).
  rewrite (match_group_component "h" h) by
    (try assumption; try reflexivity;
     repeat (first [apply no_group_some|apply no_group_component];
             try assumption; try reflexivity)).
  rewrite (match_group_component "m" m) by
    (try assumption; try reflexivity; now apply no_group_some).
  destruct Hs as [Hne Hall]. simpl component.
  now rewrite match_group_hit.
Qed.

Lemma regex_match_hours_days (hs ds : string) :
  count_ok (Some hs) -> count_ok (Some ds) ->
  regex_match (component (Some hs) "h" ++ component (Some ds) "d")
  = Some {| days := None; hours := Some hs; minutes := None; seconds := None |}.
Proof.
  intros [Hhn Hh] [Hdn Hd]. unfold regex_match. simpl component.
  rewrite (match_group_miss "d" "h") by (assumption || reflexivity).
  rewrite (match_group_hit "h") by (assumption || reflexivity).
  rewrite <- (append_nil_r (ds ++ "d")).
  rewrite (match_group_miss "m" "d") by (assumption || reflexivity).
  rewrite (match_group_miss "s" "d") by (assumption || reflexivity).
  reflexivity.
Qed.

(** The order of the components matters.  Hours before days are read alone:
    the days that follow are dropped, while days before hours are both read.
    And after a seconds component nothing is read, whatever follows. *)
Theorem parse_time_order_matters (hs ds : string) :
  count_ok (Some hs) -> count_ok (Some ds) ->
  computed_total ((hs ++ "h") ++ (ds ++ "d")) = Py.int hs * 3600
  /\ computed_total ((ds ++ "d") ++ (hs ++ "h")) = Py.int ds * 86400 + Py.int hs * 3600
  /\ (forall (d h m : option string) (ss rest : string),
         count_ok d -> count_ok h -> count_ok m -> count_ok (Some ss) ->
         computed_total (component d "d" ++ component h "h" ++ component m "m"
                         ++ (ss ++ "s") ++ rest)
         = time_param d * 86400 + time_param h * 3600 + time_param m * 60 + Py.int ss).
Proof.
  intros Hh Hd.
  assert (T : forall x, count_ok (Some x) -> time_param (Some x) = Py.int x).
  { intros x [Hne _]. destruct x; [congruence|reflexivity]. }
  refine (conj _ (conj _ _)).
  - unfold computed_total, normal.
    change ((hs ++ "h") ++ (ds ++ "d"))%string
      with (component (Some hs) "h" ++ component (Some ds) "d")%string.
    rewrite <- (append_nil_r (component (Some ds) "d")).
    rewrite !component_normal by (assumption || reflexivity).
    simpl (Py.remove_char _ (Py.lower "")). rewrite append_nil_r.
    rewrite (regex_match_hours_days hs ds Hh Hd). cbn [days hours minutes seconds].
    rewrite (T hs Hh). cbn [time_param]. lia.
  - pose proof (computed_total_grammar (Some ds) (Some hs) None None "" Hd Hh I I eq_refl) as G.
    cbn [component] in G. rewrite !append_nil_r in G.
    rewrite G, (T hs Hh), (T ds Hd). cbn [time_param]. lia.
  - intros d h m ss rest Cd Ch Cm Cs. unfold computed_total, normal.
    change (ss ++ "s")%string with (component (Some ss) "s").
    rewrite !component_normal by (assumption || reflexivity).
    rewrite (regex_match_after_seconds d h m ss _ Cd Ch Cm Cs).
    cbn [days hours minutes seconds]. now rewrite (T ss Cs).
Qed.

End ParserMore.

(** ** Reading back what is written *)

Section RoundTrip.

Context `{PyFloat}.

Lemma all_complete_proper (ls : list string) :
  forallb Py.complete ls = true -> Py.proper ls = true.
Proof.
  induction ls as [|l ls IH]; [reflexivity|]. cbn [forallb]. intros A.
  apply andb_true_iff in A as [C A]. apply proper_cons; auto.
Qed.

Lemma entry_line_complete (en : float * string) :
  writable en -> Py.complete (entry_line en) = true.
Proof.
  intros ((_ & _ & Fl & _) & Rl & _). unfold entry_line, ledger_line.
  apply complete_line. rewrite !free_of_app, Fl, Rl. reflexivity.
Qed.

Lemma entry_line_no_cr (en : float * string) :
  writable en -> Py.free_of Py.CR (entry_line en) = true.
Proof.
  intros ((_ & _ & _ & Fc) & _ & Rc). unfold entry_line, ledger_line.
  rewrite !free_of_app, Fc, Rc. reflexivity.
Qed.

Lemma parse_entry_line (en : float * string) :
  writable en -> parse_line (entry_line en) = Some en.
Proof.
  intros (P & Rl & _). destruct en as [x rule]. now apply parse_ledger_line.
Qed.

(** Entries written one per line, as the installer writes them, read back as
    the same entries in the same order: the rule may hold spaces, but no line
    feed or carriage return. *)
Theorem ledger_round_trip (es : list (float * string)) (d : fs) :
  Forall writable es ->
  rules d = Some (text_of (map entry_line es)) ->
  ledger d = map entry_line es
  /\ map parse_line (ledger d) = map Some es.
Proof.
  intros W R.
  assert (L : ledger d = map entry_line es).
  { unfold ledger. rewrite R. rewrite universal_newlines_id.
    - apply splitlines_text_of, all_complete_proper.
      apply forallb_forall. intros l I. apply in_map_iff in I as (en & <- & I).
      apply entry_line_complete. exact (proj1 (Forall_forall _ _) W en I).
    - rewrite free_of_text_of. apply forallb_forall. intros l I.
      apply in_map_iff in I as (en & <- & I).
      apply entry_line_no_cr. exact (proj1 (Forall_forall _ _) W en I). }
  split; [exact L|]. rewrite L. clear R L.
  induction W as [|en es Wen W IH]; [reflexivity|].
  cbn [map]. now rewrite (parse_entry_line en Wen), IH.
Qed.

End RoundTrip.

(** ** More on the installer *)

Section InstallMore.

Context `{PyFloat}.

Lemma splitlines_app_complete (ls : list string) (s : string) :
  forallb Py.complete ls = true ->
  Py.splitlines (text_of ls ++ s) = (ls ++ Py.splitlines s)%list.
Proof.
  induction ls as [|l ls IH]; [reflexivity|]. cbn [forallb text_of]. intros A.
  apply andb_true_iff in A as [C A].
  now rewrite append_assoc, (splitlines_complete _ _ C), (IH A).
Qed.

Lemma well_ended_ledger (d : fs) (c : string) :
  rules d = Some c -> well_ended c -> ledger d = Py.splitlines c.
Proof. intros R [Fc _]. unfold ledger. now rewrite R, universal_newlines_id. Qed.

(** A well-ended text with one more entry reads as its lines and the entry. *)
Lemma appended_entry_reads_back (c : string) (en : float * string) :
  well_ended c -> writable en ->
  Py.splitlines (Py.universal_newlines (c ++ entry_line en))
  = (Py.splitlines c ++ [entry_line en])%list.
Proof.
  intros [Fc Ac] W.
  rewrite universal_newlines_id
    by (rewrite free_of_app, Fc; now apply entry_line_no_cr).
  rewrite <- (text_of_splitlines c) at 1.
  rewrite (splitlines_app_complete _ _ Ac).
  rewrite <- (append_nil_r (entry_line en)) at 1.
  now rewrite (splitlines_complete _ _ (entry_line_complete en W)).
Qed.

Lemma contains_text_lines (rule : string) (ls : list string) :
  Py.contains rule (text_of ls) = false ->
  Forall (fun l => Py.contains rule l = false) ls.
Proof.
  induction ls as [|l ls IH]; intros C; [constructor|]. cbn [text_of] in C.
  constructor.
  - destruct (Py.contains rule l) eqn:E; [|reflexivity].
    now rewrite (contains_app_l _ _ _ E) in C.
  - apply IH. destruct (Py.contains rule (text_of ls)) eqn:E; [|reflexivity].
    now rewrite (contains_app_r _ l _ E) in C.
Qed.

(** The install of a rule that the text of the ledger does not contain, when
    the firewall accepts the insertion. *)
Lemma install_append_ok (e : env) (rule position ttl : string) (w : world) (c : string) :
  computed_total ttl / 86400 <= max_days ->
  rules (disk w) = Some c ->
  Py.contains rule (Py.universal_newlines c) = false ->
  (dry_run e = false -> ufw e (ufw_calls w) (insert_command position rule) = None) ->
  exists w',
    install e rule position ttl w = (Return tt, w')
    /\ disk w' = {| pid := pid (disk w);
                    rules := Some (c ++ entry_line (expires_at e ttl, rule));
                    tmp_rules := tmp_rules (disk w);
                    rules_path := true |}
    /\ ufw_calls w'
       = (ufw_calls w ++ if dry_run e then [] else [insert_command position rule])%list.
Proof.
  intros Hr Hc Hin Hu.
  rewrite (install_append e rule position ttl w c Hr Hc Hin).
  set (w2 := after w _ _ _).
  assert (D2 : disk w2 = {| pid := pid (disk w);
                            rules := Some (c ++ entry_line (expires_at e ttl, rule));
                            tmp_rules := tmp_rules (disk w);
                            rules_path := true |}).
  { unfold w2. cbn [disk after]. rewrite replay_app, replay_dir_ops.
    unfold append_ops, replay. simpl. unfold content. simpl. rewrite Hc.
    unfold entry_line. simpl. now rewrite append_assoc. }
  assert (U2 : ufw_calls w2 = ufw_calls w) by (unfold w2; cbn; apply app_nil_r).
  unfold insert_result. destruct (dry_run e) eqn:D.
  - eexists. split; [reflexivity|]. cbn [disk ufw_calls after replay fold_left].
    rewrite D2, U2, !app_nil_r. auto.
  - rewrite U2, (Hu eq_refl).
    eexists. split; [reflexivity|]. cbn [disk ufw_calls after replay fold_left].
    rewrite D2, U2. auto.
Qed.

(** Installing a rule that the text of the ledger does not contain, when the
    firewall accepts the insertion (or in a dry run): the installer
    returns, the entry is appended to the rules file and the insertion is the
    only command run.  When the rules file is well ended, the ledger read back
    is the old one followed by the new entry. *)
Theorem install_appends_new_rule
        (e : env) (rule position ttl : string) (w : world) (c : string) :
  computed_total ttl / 86400 <= max_days ->
  rules (disk w) = Some c ->
  Py.contains rule (Py.universal_newlines c) = false ->
  (dry_run e = false -> ufw e (ufw_calls w) (insert_command position rule) = None) ->
  let en := (expires_at e ttl, rule) in
  exists w',
    install e rule position ttl w = (Return tt, w')
    /\ rules (disk w') = Some (c ++ entry_line en)
    /\ pid (disk w') = pid (disk w) /\ tmp_rules (disk w') = tmp_rules (disk w)
    /\ ufw_calls w'
       = (ufw_calls w ++ if dry_run e then [] else [insert_command position rule])%list
    /\ (well_ended c -> writable en ->
        ledger (disk w') = (ledger (disk w) ++ [entry_line en])%list
        /\ parse_line (entry_line en) = Some en).
Proof.
  intros Hr Hc Hin Hu en.
  destruct (install_append_ok e rule position ttl w c Hr Hc Hin Hu) as (w' & E & D & U).
  exists w'. rewrite D. cbn [pid rules tmp_rules].
  refine (conj E (conj eq_refl (conj eq_refl (conj eq_refl (conj U _))))).
  intros We W. split; [|now apply parse_entry_line].
  rewrite (well_ended_ledger _ c Hc We). unfold ledger. cbn [rules].
  now apply appended_entry_reads_back.
Qed.

(** Installing a rule twice.  On a well-ended ledger whose text does not
    contain the rule, the first install appends an entry and inserts the rule
    in the firewall; the second one, whatever its time to live and position,
    replaces that entry by one with the new expiration and runs no command:
    the ledger holds one entry for the rule, the last, and the firewall has
    been called once. *)
Theorem install_twice_one_entry
        (e1 e2 : env) (rule position1 position2 ttl1 ttl2 : string)
        (w : world) (c : string) :
  dry_run e1 = false ->
  computed_total ttl1 / 86400 <= max_days ->
  computed_total ttl2 / 86400 <= max_days ->
  rules (disk w) = Some c ->
  well_ended c ->
  Py.contains rule (Py.universal_newlines c) = false ->
  ufw e1 (ufw_calls w) (insert_command position1 rule) = None ->
  writable (expires_at e1 ttl1, rule) ->
  writable (expires_at e2 ttl2, rule) ->
  exists w1 w2,
    install e1 rule position1 ttl1 w = (Return tt, w1)
    /\ install e2 rule position2 ttl2 w1 = (Raise (SystemExit 0), w2)
    /\ ledger (disk w2)
       = (ledger (disk w) ++ [entry_line (expires_at e2 ttl2, rule)])%list
    /\ entries_of rule (ledger (disk w2)) = [entry_line (expires_at e2 ttl2, rule)]
    /\ ufw_calls w2 = (ufw_calls w ++ [insert_command position1 rule])%list.
Proof.
  intros D1 Hr1 Hr2 Hc We Hin Hu W1 W2.
  destruct (install_append_ok e1 rule position1 ttl1 w c Hr1 Hc Hin (fun _ => Hu))
    as (w1 & E1 & Dk & U1).
  rewrite D1 in U1.
  set (en1 := (expires_at e1 ttl1, rule)) in *.
  set (en2 := (expires_at e2 ttl2, rule)) in *.
  assert (Hc1 : rules (disk w1) = Some (c ++ entry_line en1)) by now rewrite Dk.
  assert (L0 : ledger (disk w) = Py.splitlines c) by now apply well_ended_ledger.
  assert (L1 : ledger (disk w1) = (ledger (disk w) ++ entry_line en1 :: [])%list).
  { rewrite L0. unfold ledger. rewrite Hc1. now apply appended_entry_reads_back. }
  assert (Hno : Forall (fun l => Py.contains rule l = false) (ledger (disk w) ++ [])).
  { rewrite app_nil_r, L0. apply contains_text_lines.
    rewrite text_of_splitlines. destruct We as [Fc _].
    now rewrite (universal_newlines_id _ Fc) in Hin. }
  pose proof (parse_entry_line en1 W1) as P1.
  destruct (install_refreshes_single_match e2 rule position2 ttl2 w1 _
              (ledger (disk w)) [] (entry_line en1) Hr2 Hc1 L1
              (rule_in_line _ _ _ P1) Hno) as (w2 & E2 & R2 & U2).
  exists w1, w2. refine (conj E1 (conj E2 _)).
  assert (L2 : ledger (disk w2) = (ledger (disk w) ++ [entry_line en2])%list).
  { unfold ledger at 1. rewrite R2.
    destruct W2 as (Px & Rl & Rc).
    apply (refreshed_ledger_reads_back (c ++ entry_line en1) _ [] (entry_line en1));
      auto.
    unfold ledger in L1. now rewrite Hc1 in L1. }
  refine (conj L2 (conj _ _)).
  - rewrite L2. unfold entries_of. rewrite filter_app. cbn [filter].
    fold (entries_of rule (ledger (disk w))).
    rewrite app_nil_r in Hno. rewrite (entries_of_none _ _ Hno).
    unfold rule_of. rewrite (parse_entry_line en2 W2). cbn [snd en2].
    now rewrite String.eqb_refl.
  - now rewrite U2, U1.
Qed.


(** A rejected insertion is not tried again.  The installer writes the entry
    before it calls the firewall: when the firewall rejects the insertion
    (with another output than the one for position 1), the install raises,
    and the entry is in the rules file.  Installing the same rule again then
    takes the entry for an installed rule: it refreshes the expiration, ends
    with [exit(0)], and does not call the firewall, whatever the firewall
    would answer now. *)
Theorem rejected_insert_not_tried_again
        (e1 e2 : env) (rule position1 position2 ttl1 ttl2 : string)
        (w : world) (c output : string) :
  dry_run e1 = false ->
  computed_total ttl1 / 86400 <= max_days ->
  computed_total ttl2 / 86400 <= max_days ->
  rules (disk w) = Some c ->
  well_ended c ->
  Py.contains rule (Py.universal_newlines c) = false ->
  ufw e1 (ufw_calls w) (insert_command position1 rule) = Some output ->
  String.eqb output invalid_position_1 = false ->
  writable (expires_at e1 ttl1, rule) ->
  exists w1 w2,
    install e1 rule position1 ttl1 w = (Raise (Exception ("ufw: " ++ output)), w1)
    /\ rules (disk w1) = Some (c ++ entry_line (expires_at e1 ttl1, rule))
    /\ install e2 rule position2 ttl2 w1 = (Raise (SystemExit 0), w2)
    /\ rules (disk w2) = Some (c ++ entry_line (expires_at e2 ttl2, rule))
    /\ ufw_calls w2 = (ufw_calls w ++ [insert_command position1 rule])%list.
Proof.
  intros D1 Hr1 Hr2 Hc We Hin Hu Ho W1.
  set (en1 := (expires_at e1 ttl1, rule)).
  set (w0 := after w (dir_ops (disk w) ++ append_ops (expires_at e1 ttl1) rule)
                   (ttl_msgs ttl1) []).
  assert (Hc0 : rules (disk w0) = Some (c ++ entry_line en1)).
  { unfold w0. cbn [disk after]. now apply replay_append_ops. }
  assert (U0 : ufw_calls w0 = ufw_calls w) by (unfold w0; cbn; apply app_nil_r).
  set (w1 := after w0 [] [] [insert_command position1 rule]).
  assert (E1 : install e1 rule position1 ttl1 w
               = (Raise (Exception ("ufw: " ++ output)), w1)).
  { rewrite (install_append e1 rule position1 ttl1 w c Hr1 Hc Hin). fold w0.
    unfold insert_result. now rewrite D1, U0, Hu, Ho. }
  assert (Hc1 : rules (disk w1) = Some (c ++ entry_line en1)).
  { unfold w1. cbn [disk after replay fold_left]. exact Hc0. }
  assert (U1 : ufw_calls w1 = (ufw_calls w ++ [insert_command position1 rule])%list).
  { unfold w1. cbn [ufw_calls after]. now rewrite U0. }
  assert (L0 : ledger (disk w) = Py.splitlines c) by now apply well_ended_ledger.
  assert (L1 : ledger (disk w1) = (ledger (disk w) ++ entry_line en1 :: [])%list).
  { rewrite L0. unfold ledger. rewrite Hc1. now apply appended_entry_reads_back. }
  assert (Hno : Forall (fun l => Py.contains rule l = false) (ledger (disk w) ++ [])).
  { rewrite app_nil_r, L0. apply contains_text_lines.
    rewrite text_of_splitlines. destruct We as [Fc _].
    now rewrite (universal_newlines_id _ Fc) in Hin. }
  pose proof (parse_entry_line en1 W1) as P1.
  destruct (install_refreshes_single_match e2 rule position2 ttl2 w1 _
              (ledger (disk w)) [] (entry_line en1) Hr2 Hc1 L1
              (rule_in_line _ _ _ P1) Hno) as (w2 & E2 & R2 & U2).
  exists w1, w2. refine (conj E1 (conj Hc1 (conj E2 (conj _ _)))).
  - rewrite R2, text_of_app, L0, text_of_splitlines. cbn [text_of].
    unfold entry_line. cbn [fst snd]. now rewrite append_nil_r.
  - now rewrite U2.
Qed.

End InstallMore.

(** ** main *)

Section Main.

Context `{PyFloat}.

(** The parts of a run come in the order [--status], [--clean], [--rule],
    and an exception in one ends the run: with no rules file [--status]
    raises and neither the sweep nor the install is run; and under a lock
    [--clean] raises and the rule is not installed. *)
Theorem main_stops_at_first_failure (e : env) (a : args) (w : world) :
  (arg_status a = true -> rules (disk w) = None ->
   main e a w = (Raise (Exception "There are no rules to display"), w))
  /\ (arg_status a = false -> arg_clean a = true ->
      forall p, pid (disk w) = Some p ->
                main e a w = (Raise (Exception "tmpufw is already running"), w)).
Proof.
  split.
  - intros S R. unfold main. rewrite S. apply bind_Raise.
    exact (proj2 (status_changes_nothing w) R).
  - intros S C p P. unfold main. rewrite S, C.
    rewrite (bind_Return _ _ w w tt) by reflexivity.
    apply bind_Raise. exact (clean_locked e w p P).
Qed.

End Main.

(** * The further properties on concrete runs *)


Lemma status_changes_nothing_witness :
  status (start Run.fresh)
  = (Raise (Exception "There are no rules to display"), start Run.fresh).
Proof. exact (proj2 (status_changes_nothing (start Run.fresh)) eq_refl). Defined.

Lemma dry_run_runs_no_command_witness :
  ufw_calls (snd (main (Run.dry 1000) Run.clean_and_rule
                       (start (Run.with_ledger Run.two_rules)))) = [].
Proof.
  exact (dry_run_runs_no_command (Run.dry 1000) Run.clean_and_rule
           (start (Run.with_ledger Run.two_rules)) eq_refl).
Defined.


Lemma failed_sweep_keeps_ledger_witness :
  rules (disk (snd Run.sweep_refused)) = Some Run.three_rules.
Proof.
  exact (failed_sweep_keeps_ledger (Run.live Run.refusing 1000)
           (start (Run.with_ledger Run.three_rules)) (snd Run.sweep_refused)
           (Exception ("ufw: " ++ Run.not_found)) eq_refl).
Defined.



Lemma parse_time_order_matters_witness :
  computed_total "2h1d" = 7200 /\ computed_total "1d2h" = 93600.
Proof.
  destruct (parse_time_order_matters "2" "1") as (A & B & _).
  - split; [discriminate|reflexivity].
  - split; [discriminate|reflexivity].
  - split; [exact A|exact B].
Defined.

Lemma ledger_round_trip_witness :
  map parse_line
      (ledger (Run.with_ledger (text_of (map entry_line Run.two_entries))))
  = map Some Run.two_entries.
Proof.
  apply (ledger_round_trip Run.two_entries
           (Run.with_ledger (text_of (map entry_line Run.two_entries)))).
  - repeat constructor.
  - reflexivity.
Defined.

Lemma install_appends_new_rule_witness :
  exists w',
    Run.install_new = (Return tt, w')
    /\ ledger (disk w') = [Run.line "700.0" Run.ssh_10; Run.line "87400.0" "allow 22"]
    /\ ufw_calls w' = ["ufw insert 1 allow 22"].
Proof.
  assert (R : computed_total "1d" / 86400 <= max_days) by (vm_compute; discriminate).
  destruct (install_appends_new_rule
              (Run.live Run.accepting 1000) "allow 22" "1" "1d"
              (start (Run.with_ledger Run.only_ssh_10)) Run.only_ssh_10
              R eq_refl eq_refl (fun _ => eq_refl))
    as (w' & E & _ & _ & _ & U & L).
  destruct L as [L _]; [split; reflexivity|repeat split|].
  exists w'. split; [exact E|]. split; [rewrite L; reflexivity|exact U].
Defined.

Lemma install_twice_one_entry_witness :
  exists w1 w2,
    Run.install_new = (Return tt, w1)
    /\ install (Run.live Run.accepting 2000) "allow 22" "5" "2h30m" w1
       = (Raise (SystemExit 0), w2)
    /\ ledger (disk w2) = [Run.line "700.0" Run.ssh_10; Run.line "11000.0" "allow 22"]
    /\ ufw_calls w2 = ["ufw insert 1 allow 22"].
Proof.
  assert (R1 : computed_total "1d" / 86400 <= max_days) by (vm_compute; discriminate).
  assert (R2 : computed_total "2h30m" / 86400 <= max_days) by (vm_compute; discriminate).
  destruct (install_twice_one_entry
              (Run.live Run.accepting 1000) (Run.live Run.accepting 2000)
              "allow 22" "1" "5" "1d" "2h30m"
              (start (Run.with_ledger Run.only_ssh_10)) Run.only_ssh_10
              eq_refl R1 R2 eq_refl)
    as (w1 & w2 & E1 & E2 & L & _ & U); try reflexivity.
  - split; reflexivity.
  - repeat split.
  - repeat split.
  - exists w1, w2. split; [exact E1|]. split; [exact E2|].
    split; [rewrite L; reflexivity|exact U].
Defined.


Lemma main_stops_at_first_failure_witness :
  main (Run.live Run.accepting 1000) Run.status_clean_and_rule (start Run.fresh)
  = (Raise (Exception "There are no rules to display"), start Run.fresh)
  /\ main (Run.live Run.accepting 1000) Run.clean_and_rule
          (start (Run.locked Run.two_rules))
     = (Raise (Exception "tmpufw is already running"), start (Run.locked Run.two_rules)).
Proof.
  split.
  - exact (proj1 (main_stops_at_first_failure (Run.live Run.accepting 1000)
                    Run.status_clean_and_rule (start Run.fresh)) eq_refl eq_refl).
  - exact (proj2 (main_stops_at_first_failure (Run.live Run.accepting 1000)
                    Run.clean_and_rule (start (Run.locked Run.two_rules)))
                 eq_refl eq_refl "17" eq_refl).
Defined.

Lemma rejected_insert_not_tried_again_witness :
  exists w1 w2,
    install (Run.live (Run.rejecting "ufw insert 1 allow 22" "ERROR: Bad port") 1000)
            "allow 22" "1" "1d" (start (Run.with_ledger Run.only_ssh_10))
    = (Raise (Exception "ufw: ERROR: Bad port"), w1)
    /\ install (Run.live Run.accepting 2000) "allow 22" "1" "1d" w1
       = (Raise (SystemExit 0), w2)
    /\ ufw_calls w2 = ["ufw insert 1 allow 22"].
Proof.
  assert (R : computed_total "1d" / 86400 <= max_days) by (vm_compute; discriminate).
  destruct (rejected_insert_not_tried_again
              (Run.live (Run.rejecting "ufw insert 1 allow 22" "ERROR: Bad port") 1000)
              (Run.live Run.accepting 2000)
              "allow 22" "1" "1" "1d" "1d"
              (start (Run.with_ledger Run.only_ssh_10)) Run.only_ssh_10 "ERROR: Bad port"
              eq_refl R R eq_refl)
    as (w1 & w2 & E1 & _ & E2 & _ & U); try reflexivity.
  - split; reflexivity.
  - repeat split.
  - exists w1, w2. split; [exact E1|]. split; [exact E2|exact U].
Defined.

